(** * DogeLayer fee oracle and relayer services

    A shallow embedding of

    - [contracts/GasRelayer.sol]: the gas-price oracle, the relayer
      compensation ledger with its daily circuit breaker, relayer
      withdrawals and the admin switches;
    - [src/services/monitoring/AlertManager.ts]: webhook alerts;
    - [GasRelayerService]: the off-chain wrapper that submits the contract
      calls through [retryWithBackoff].

    Solidity [uint256] values are integers of [Z] with the compiler's
    overflow checks (Solidity 0.8: a failed check reverts with [Panic])
    written out.  A transaction either commits its writes and events or
    reverts and leaves storage as it found it. *)

From Stdlib Require Import ZArith QArith Qabs Qround Lia.
From stdpp Require Import base gmap strings pretty list fin_maps.

Close Scope Q_scope.
Local Open Scope Z_scope.

(** ** The contract *)

Module GasRelayer.

(** *** Units and constants *)

Definition MAX_UINT256 : Z := 2 ^ 256 - 1.

Definition gwei : Z := 10 ^ 9.
Definition ether : Z := 10 ^ 18.
Definition hours : Z := 3600.
Definition days : Z := 86400.

Definition GAS_PRICE_UPDATE_INTERVAL : Z := 1 * hours.
Definition MAX_PRICE_DEVIATION : Z := 50.
Definition MIN_GAS_PRICE : Z := 1 * gwei.
Definition MAX_GAS_PRICE : Z := 500 * gwei.
Definition MAX_DAILY_COMPENSATION : Z := 1000 * ether.

(** Addresses are 160-bit numbers; [address(0)] is [0]. *)
Abbreviation address := Z (only parsing).

Inductive Role := DEFAULT_ADMIN_ROLE | RELAYER_ROLE | ORACLE_ROLE.

#[global] Instance Role_eq_dec : EqDecision Role.
Proof. solve_decision. Defined.

Definition Role_to_nat (r : Role) : nat :=
  match r with DEFAULT_ADMIN_ROLE => 0 | RELAYER_ROLE => 1 | ORACLE_ROLE => 2 end%nat.

Definition Role_of_nat (n : nat) : option Role :=
  match n with
  | O => Some DEFAULT_ADMIN_ROLE
  | S O => Some RELAYER_ROLE
  | S (S O) => Some ORACLE_ROLE
  | _ => None
  end.

#[global] Instance Role_countable : Countable Role.
Proof.
  apply (inj_countable Role_to_nat Role_of_nat).
  intros []; reflexivity.
Defined.

(** *** Events and errors *)

Inductive Event :=
| GasPriceUpdated (newPrice timestamp : Z)
| RelayerCompensated (relayer : address) (amount : Z)
| PriceDeviationDetected (oldPrice newPrice deviation : Z)
| DailyLimitReset (timestamp : Z)
| EmergencyWithdrawal (token recipient : address) (amount : Z)
| Paused (account : address)
| Unpaused (account : address)
| RoleGranted (role : Role) (account sender : address)
| RoleRevoked (role : Role) (account sender : address).

Inductive Error :=
| InvalidGasPrice (price : Z)
| SuspiciousPriceMovement (oldPrice newPrice : Z)
| DailyLimitExceeded (amount limit : Z)
| InsufficientBalance (requested available : Z)
| TransferFailed
| RevertReason (reason : string)          (* require(cond, reason) *)
| MissingRole (account : address) (role : Role)
                                         (* AccessControl: account .. is missing role .. *)
| Panic (code : Z)                       (* 0x11: arithmetic overflow or underflow *)
| ExternalRevert.                        (* a called contract reverted *)

(** *** Storage *)

Record State := mkState {
  wdoge : address;
  gasPrice : Z;
  gasPriceLastUpdated : Z;
  relayerFeeMultiplier : Z;
  relayerBalances : gmap Z Z;
  totalRelayerBalance : Z;
  dailyCompensation : Z;
  lastDailyReset : Z;
  paused : bool;                          (* Pausable *)
  entered : bool;                         (* ReentrancyGuard: _status = _ENTERED *)
  roles : gset (Role * Z)                 (* AccessControl *)
}.

Definition set_gasPrice (v : Z) (s : State) : State :=
  mkState (wdoge s) v (gasPriceLastUpdated s) (relayerFeeMultiplier s)
    (relayerBalances s) (totalRelayerBalance s) (dailyCompensation s)
    (lastDailyReset s) (paused s) (entered s) (roles s).

Definition set_gasPriceLastUpdated (v : Z) (s : State) : State :=
  mkState (wdoge s) (gasPrice s) v (relayerFeeMultiplier s)
    (relayerBalances s) (totalRelayerBalance s) (dailyCompensation s)
    (lastDailyReset s) (paused s) (entered s) (roles s).

Definition set_relayerFeeMultiplier (v : Z) (s : State) : State :=
  mkState (wdoge s) (gasPrice s) (gasPriceLastUpdated s) v
    (relayerBalances s) (totalRelayerBalance s) (dailyCompensation s)
    (lastDailyReset s) (paused s) (entered s) (roles s).

Definition set_relayerBalances (v : gmap Z Z) (s : State) : State :=
  mkState (wdoge s) (gasPrice s) (gasPriceLastUpdated s) (relayerFeeMultiplier s)
    v (totalRelayerBalance s) (dailyCompensation s)
    (lastDailyReset s) (paused s) (entered s) (roles s).

Definition set_totalRelayerBalance (v : Z) (s : State) : State :=
  mkState (wdoge s) (gasPrice s) (gasPriceLastUpdated s) (relayerFeeMultiplier s)
    (relayerBalances s) v (dailyCompensation s)
    (lastDailyReset s) (paused s) (entered s) (roles s).

Definition set_dailyCompensation (v : Z) (s : State) : State :=
  mkState (wdoge s) (gasPrice s) (gasPriceLastUpdated s) (relayerFeeMultiplier s)
    (relayerBalances s) (totalRelayerBalance s) v
    (lastDailyReset s) (paused s) (entered s) (roles s).

Definition set_lastDailyReset (v : Z) (s : State) : State :=
  mkState (wdoge s) (gasPrice s) (gasPriceLastUpdated s) (relayerFeeMultiplier s)
    (relayerBalances s) (totalRelayerBalance s) (dailyCompensation s)
    v (paused s) (entered s) (roles s).

Definition set_paused (v : bool) (s : State) : State :=
  mkState (wdoge s) (gasPrice s) (gasPriceLastUpdated s) (relayerFeeMultiplier s)
    (relayerBalances s) (totalRelayerBalance s) (dailyCompensation s)
    (lastDailyReset s) v (entered s) (roles s).

Definition set_entered (v : bool) (s : State) : State :=
  mkState (wdoge s) (gasPrice s) (gasPriceLastUpdated s) (relayerFeeMultiplier s)
    (relayerBalances s) (totalRelayerBalance s) (dailyCompensation s)
    (lastDailyReset s) (paused s) v (roles s).

Definition set_roles (v : gset (Role * Z)) (s : State) : State :=
  mkState (wdoge s) (gasPrice s) (gasPriceLastUpdated s) (relayerFeeMultiplier s)
    (relayerBalances s) (totalRelayerBalance s) (dailyCompensation s)
    (lastDailyReset s) (paused s) (entered s) v.

(** A Solidity mapping reads [0] at a key never written. *)
Definition balanceOfRelayer (s : State) (a : address) : Z :=
  default 0 (relayerBalances s !! a).

Definition hasRole (s : State) (r : Role) (a : address) : bool :=
  bool_decide ((r, a) ∈ roles s).

(** *** The transaction environment

    What the chain and the other contracts answer during one call.  The
    token contracts ([WDOGE], or the token named in [emergencyWithdraw])
    are not part of this contract: their answers are inputs of the call. *)

Inductive TransferOutcome := ReturnsTrue | ReturnsFalse | Reverts.

Record Env := mkEnv {
  msg_sender : address;
  block_timestamp : Z;
  tx_gasprice : Z;
  self_balance : Z;                                  (* address(this).balance *)
  token_balanceOf : address -> option Z;             (* token.balanceOf(address(this)); None: reverts *)
  token_transfer : address -> address -> Z -> TransferOutcome;
                                                     (* token.transfer(to, amount) *)
  send_value : address -> Z -> bool                  (* recipient.call{value: amount}("") *)
}.

(** *** The transaction monad: storage, event log, revert *)

Definition Machine : Type := State * list Event.

Definition Tx (A : Type) : Type := Machine -> Error + (A * Machine).

Definition ret {A} (a : A) : Tx A := fun m => inr (a, m).

Definition bind {A B} (c : Tx A) (k : A -> Tx B) : Tx B :=
  fun m => match c m with
           | inl err => inl err
           | inr (a, m') => k a m'
           end.

#[local] Notation "x <- c ;; k" := (bind c (fun x => k))
  (at level 100, c at next level, right associativity).
#[local] Notation "c ;;; k" := (bind c (fun _ => k))
  (at level 100, right associativity).

Definition revert {A} (err : Error) : Tx A := fun _ => inl err.

Definition require (cond : bool) (reason : string) : Tx unit :=
  if cond then ret tt else revert (RevertReason reason).

Definition get : Tx State := fun m => inr (fst m, m).

Definition modify (f : State -> State) : Tx unit :=
  fun m => inr (tt, (f (fst m), snd m)).

Definition emit (ev : Event) : Tx unit :=
  fun m => inr (tt, (fst m, snd m ++ [ev])).

(** Checked [uint256] arithmetic. *)
Definition checked_add (a b : Z) : Tx Z :=
  if a + b <=? MAX_UINT256 then ret (a + b) else revert (Panic 17).

Definition checked_sub (a b : Z) : Tx Z :=
  if b <=? a then ret (a - b) else revert (Panic 17).

Definition checked_mul (a b : Z) : Tx Z :=
  if a * b <=? MAX_UINT256 then ret (a * b) else revert (Panic 17).

(** *** Modifiers *)

Definition onlyRole (r : Role) (e : Env) : Tx unit :=
  s <- get ;;
  if hasRole s r (msg_sender e) then ret tt
  else revert (MissingRole (msg_sender e) r).

Definition whenNotPaused : Tx unit :=
  s <- get ;; require (negb (paused s)) "Pausable: paused".

Definition whenPaused : Tx unit :=
  s <- get ;; require (paused s) "Pausable: not paused".

Definition nonReentrant {A} (body : Tx A) : Tx A :=
  s <- get ;;
  require (negb (entered s)) "ReentrancyGuard: reentrant call" ;;;
  modify (set_entered true) ;;;
  r <- body ;;
  modify (set_entered false) ;;;
  ret r.

(** *** Constructor *)

Definition constructor (_wdoge : address) (e : Env) : Error + State :=
  if _wdoge =? 0 then inl (RevertReason "Invalid WDOGE address")
  else inr {|
    wdoge := _wdoge;
    gasPrice := 100 * gwei;
    gasPriceLastUpdated := block_timestamp e;
    relayerFeeMultiplier := 110;
    relayerBalances := ∅;
    totalRelayerBalance := 0;
    dailyCompensation := 0;
    lastDailyReset := block_timestamp e;
    paused := false;
    entered := false;
    roles := {[ (DEFAULT_ADMIN_ROLE, msg_sender e);
                (RELAYER_ROLE, msg_sender e);
                (ORACLE_ROLE, msg_sender e) ]}
  |}.

(** *** Functions *)

Definition updateGasPrice (e : Env) : Tx unit :=
  onlyRole ORACLE_ROLE e ;;;
  whenNotPaused ;;;
  s <- get ;;
  earliest <- checked_add (gasPriceLastUpdated s) GAS_PRICE_UPDATE_INTERVAL ;;
  require (earliest <=? block_timestamp e) "Too soon to update" ;;;
  let newGasPrice := tx_gasprice e in
  (if (newGasPrice <? MIN_GAS_PRICE) || (MAX_GAS_PRICE <? newGasPrice)
   then revert (InvalidGasPrice newGasPrice) else ret tt) ;;;
  (if 0 <? gasPrice s then
     diff <- (if gasPrice s <? newGasPrice
              then checked_sub newGasPrice (gasPrice s)
              else checked_sub (gasPrice s) newGasPrice) ;;
     scaled <- checked_mul diff 100 ;;
     let deviation := scaled / gasPrice s in
     (if MAX_PRICE_DEVIATION <? deviation
      then revert (SuspiciousPriceMovement (gasPrice s) newGasPrice)
      else ret tt) ;;;
     (if 30 <? deviation
      then emit (PriceDeviationDetected (gasPrice s) newGasPrice deviation)
      else ret tt)
   else ret tt) ;;;
  modify (set_gasPrice newGasPrice) ;;;
  modify (set_gasPriceLastUpdated (block_timestamp e)) ;;;
  s' <- get ;;
  emit (GasPriceUpdated (gasPrice s') (block_timestamp e)).

Definition resetDailyLimit (e : Env) : Tx unit :=
  s <- get ;;
  windowEnd <- checked_add (lastDailyReset s) (1 * days) ;;
  if windowEnd <=? block_timestamp e then
    modify (set_dailyCompensation 0) ;;;
    modify (set_lastDailyReset (block_timestamp e)) ;;;
    emit (DailyLimitReset (block_timestamp e))
  else ret tt.

Definition estimateGasFee (gasLimit : Z) : Tx Z :=
  s <- get ;;
  p <- checked_mul (gasPrice s) gasLimit ;;
  q <- checked_mul p (relayerFeeMultiplier s) ;;
  ret (q / 100).

Definition compensateRelayer (relayer : address) (gasUsed : Z) (e : Env) : Tx unit :=
  onlyRole RELAYER_ROLE e ;;;
  nonReentrant (
    whenNotPaused ;;;
    resetDailyLimit e ;;;
    s <- get ;;
    p <- checked_mul (gasPrice s) gasUsed ;;
    q <- checked_mul p (relayerFeeMultiplier s) ;;
    let compensation := q / 100 in
    total <- checked_add (dailyCompensation s) compensation ;;
    (if MAX_DAILY_COMPENSATION <? total then
       remaining <- checked_sub MAX_DAILY_COMPENSATION (dailyCompensation s) ;;
       revert (DailyLimitExceeded compensation remaining)
     else ret tt) ;;;
    daily' <- checked_add (dailyCompensation s) compensation ;;
    modify (set_dailyCompensation daily') ;;;
    s1 <- get ;;
    bal' <- checked_add (balanceOfRelayer s1 relayer) compensation ;;
    modify (set_relayerBalances (<[relayer := bal']> (relayerBalances s1))) ;;;
    s2 <- get ;;
    total' <- checked_add (totalRelayerBalance s2) compensation ;;
    modify (set_totalRelayerBalance total') ;;;
    emit (RelayerCompensated relayer compensation)).

Definition withdrawRelayerBalance (e : Env) : Tx unit :=
  nonReentrant (
    whenNotPaused ;;;
    s <- get ;;
    let balance := balanceOfRelayer s (msg_sender e) in
    (if balance =? 0 then revert (InsufficientBalance 0 0) else ret tt) ;;;
    contractBalance <- match token_balanceOf e (wdoge s) with
                       | Some b => ret b
                       | None => revert ExternalRevert
                       end ;;
    (if contractBalance <? balance
     then revert (InsufficientBalance balance contractBalance)
     else ret tt) ;;;
    modify (set_relayerBalances (<[msg_sender e := 0]> (relayerBalances s))) ;;;
    s1 <- get ;;
    total' <- checked_sub (totalRelayerBalance s1) balance ;;
    modify (set_totalRelayerBalance total') ;;;
    match token_transfer e (wdoge s) (msg_sender e) balance with
    | ReturnsTrue => ret tt
    | ReturnsFalse => revert TransferFailed
    | Reverts => revert ExternalRevert
    end).

Definition setRelayerFeeMultiplier (_multiplier : Z) (e : Env) : Tx unit :=
  onlyRole DEFAULT_ADMIN_ROLE e ;;;
  require (100 <=? _multiplier) "Multiplier must be >= 100" ;;;
  require (_multiplier <=? 150) "Multiplier must be <= 150" ;;;
  modify (set_relayerFeeMultiplier _multiplier).

Definition pause (e : Env) : Tx unit :=
  onlyRole DEFAULT_ADMIN_ROLE e ;;;
  whenNotPaused ;;;
  modify (set_paused true) ;;;
  emit (Paused (msg_sender e)).

Definition unpause (e : Env) : Tx unit :=
  onlyRole DEFAULT_ADMIN_ROLE e ;;;
  whenPaused ;;;
  modify (set_paused false) ;;;
  emit (Unpaused (msg_sender e)).

Definition emergencyWithdraw (token recipient : address) (e : Env) : Tx unit :=
  onlyRole DEFAULT_ADMIN_ROLE e ;;;
  s <- get ;;
  require (paused s) "Must be paused" ;;;
  require (negb (recipient =? 0)) "Invalid recipient" ;;;
  amount <- (if token =? 0 then
               let amount := self_balance e in
               require (send_value e recipient amount) "ETH transfer failed" ;;;
               ret amount
             else
               amount <- match token_balanceOf e token with
                         | Some b => ret b
                         | None => revert ExternalRevert
                         end ;;
               match token_transfer e token recipient amount with
               | ReturnsTrue => ret amount
               | ReturnsFalse => revert (RevertReason "Token transfer failed")
               | Reverts => revert ExternalRevert
               end) ;;
  emit (EmergencyWithdrawal token recipient amount).

(** Role administration inherited from AccessControl; every role's admin
    is [DEFAULT_ADMIN_ROLE]. *)
Definition grantRole (r : Role) (account : address) (e : Env) : Tx unit :=
  onlyRole DEFAULT_ADMIN_ROLE e ;;;
  s <- get ;;
  if hasRole s r account then ret tt
  else modify (set_roles ({[ (r, account) ]} ∪ roles s)) ;;;
       emit (RoleGranted r account (msg_sender e)).

Definition revokeRole (r : Role) (account : address) (e : Env) : Tx unit :=
  onlyRole DEFAULT_ADMIN_ROLE e ;;;
  s <- get ;;
  if hasRole s r account
  then modify (set_roles (roles s ∖ {[ (r, account) ]})) ;;;
       emit (RoleRevoked r account (msg_sender e))
  else ret tt.

Definition renounceRole (r : Role) (account : address) (e : Env) : Tx unit :=
  require (bool_decide (account = msg_sender e))
    "AccessControl: can only renounce roles for self" ;;;
  s <- get ;;
  if hasRole s r account
  then modify (set_roles (roles s ∖ {[ (r, account) ]})) ;;;
       emit (RoleRevoked r account (msg_sender e))
  else ret tt.

(** *** Transactions

    A call that reverts leaves storage as it was and logs nothing. *)

Inductive Outcome :=
| Succeeded (events : list Event)
| Reverted (err : Error).

Definition transact (c : Tx unit) (s : State) : State * Outcome :=
  match c (s, []) with
  | inl err => (s, Reverted err)
  | inr (_, (s', evs)) => (s', Succeeded evs)
  end.

(** A [view] call: the value returned, or the error. *)
Definition staticcall {A} (c : Tx A) (s : State) : Error + A :=
  match c (s, []) with
  | inl err => inl err
  | inr (a, _) => inr a
  end.

Inductive Call :=
| UpdateGasPrice
| CompensateRelayer (relayer : address) (gasUsed : Z)
| WithdrawRelayerBalance
| SetRelayerFeeMultiplier (_multiplier : Z)
| Pause
| Unpause
| EmergencyWithdraw (token recipient : address)
| GrantRole (r : Role) (account : address)
| RevokeRole (r : Role) (account : address)
| RenounceRole (r : Role) (account : address).

Definition dispatch (c : Call) (e : Env) : Tx unit :=
  match c with
  | UpdateGasPrice => updateGasPrice e
  | CompensateRelayer relayer gasUsed => compensateRelayer relayer gasUsed e
  | WithdrawRelayerBalance => withdrawRelayerBalance e
  | SetRelayerFeeMultiplier m => setRelayerFeeMultiplier m e
  | Pause => pause e
  | Unpause => unpause e
  | EmergencyWithdraw token recipient => emergencyWithdraw token recipient e
  | GrantRole r a => grantRole r a e
  | RevokeRole r a => revokeRole r a e
  | RenounceRole r a => renounceRole r a e
  end.

Definition exec (c : Call) (e : Env) (s : State) : State * Outcome :=
  transact (dispatch c e) s.

(** *** The price deviation

    [deviation] is what [updateGasPrice] computes: the absolute difference
    times 100, divided by the old price with the remainder dropped.
    [spec_deviation] is the specification's |new - old| / old * 100 as an
    exact rational. *)

Definition deviation (old new : Z) : Z := Z.abs (new - old) * 100 / old.

Definition spec_deviation (old new : Z) : Q :=
  (Qabs (inject_Z new - inject_Z old) / inject_Z old * inject_Z 100)%Q.

(** *** Reachable storage *)

Definition uint256 (x : Z) : Prop := 0 <= x <= MAX_UINT256.

(** Arguments of [uint256] type arrive in range. *)
Definition wf_call (c : Call) : Prop :=
  match c with
  | CompensateRelayer _ gasUsed => uint256 gasUsed
  | SetRelayerFeeMultiplier m => uint256 m
  | _ => True
  end.

Inductive reachable : State -> Prop :=
| reachable_deploy (_wdoge : address) (e : Env) (s : State) :
    constructor _wdoge e = inr s -> reachable s
| reachable_exec (c : Call) (e : Env) (s : State) :
    reachable s -> wf_call c -> reachable (fst (exec c e s)).

(** The sum of [relayerBalances] over all addresses. *)
Definition sum_balances (m : gmap Z Z) : Z :=
  map_fold (fun _ v acc => v + acc) 0 m.

Record inv (s : State) : Prop := mkInv {
  inv_gasPrice : MIN_GAS_PRICE <= gasPrice s <= MAX_GAS_PRICE;
  inv_multiplier : 100 <= relayerFeeMultiplier s <= 150;
  inv_daily : 0 <= dailyCompensation s <= MAX_DAILY_COMPENSATION;
  inv_balances : forall a, 0 <= balanceOfRelayer s a;
  inv_total : totalRelayerBalance s = sum_balances (relayerBalances s);
  inv_entered : entered s = false
}.

(** *** Who may call what

    The role a function's [onlyRole] modifier names; [None] where the
    function has no such modifier.  The role administration inherited
    from AccessControl is left out. *)
Definition required_role (c : Call) : option Role :=
  match c with
  | UpdateGasPrice => Some ORACLE_ROLE
  | CompensateRelayer _ _ => Some RELAYER_ROLE
  | WithdrawRelayerBalance => None
  | SetRelayerFeeMultiplier _ => Some DEFAULT_ADMIN_ROLE
  | Pause => Some DEFAULT_ADMIN_ROLE
  | Unpause => Some DEFAULT_ADMIN_ROLE
  | EmergencyWithdraw _ _ => Some DEFAULT_ADMIN_ROLE
  | GrantRole _ _ | RevokeRole _ _ | RenounceRole _ _ => None
  end.

(** The calls that write the relayer ledger. *)
Definition touches_ledger (c : Call) : bool :=
  match c with
  | CompensateRelayer _ _ | WithdrawRelayerBalance => true
  | _ => false
  end.

(** The storage after a sequence of transactions, each a call with the
    block and sender it runs in. *)
Definition run (trace : list (Call * Env)) (s : State) : State :=
  foldl (fun st ce => fst (exec (fst ce) (snd ce) st)) s trace.

End GasRelayer.

(** ** The off-chain services *)

(** *** The JavaScript side: promises awaited to settlement

    An [async] function either resolves with a value or rejects with the
    value thrown.  The network, the chain and the clock are the world
    outside; what they answer is part of the world, what the code does to
    them (requests posted, console lines, calls submitted, timers awaited)
    is logged in it.  Every [fetch] and every timer of the sources is
    awaited: the code after it runs once the answer has arrived or the
    delay has passed, and the world counts the time spent that way. *)

Module Js.

Inductive Thrown :=
| ErrorObject (message : string)
| Undefined.

Inductive Completion (A : Type) :=
| Resolved (a : A)
| Rejected (t : Thrown).
Arguments Resolved {A} a.
Arguments Rejected {A} t.

(** What [fetch] settles to. *)
Record Response := mkResponse { ok : bool; statusText : string }.

(** A JavaScript number: what the code does with one is test it in a
    condition and pass it on. *)
Inductive number :=
| Int (n : Z)
| Fraction (q : Q)                       (* a finite number that is not an integer *)
| Infinity (negative : bool)
| NaN.

Coercion Int : Z >-> number.

(** What a field of a parsed request body may hold. *)
Inductive Value :=
| VUndefined                             (* the field is absent *)
| VNull
| VBool (b : bool)
| VNumber (n : number)
| VString (s : string)
| VObject (text : string).               (* an array or an object; [text] is the
                                            string it converts to *)

(** A call on the typed contract object. *)
Inductive ContractCall :=
| CompensateRelayerCall (relayer : string) (gasUsed : number)
| WithdrawRelayerBalanceCall (signer : string).

(** The arguments of one [console.error] call: a text, and with
    [console.error(text, value)] the value printed after it. *)
Definition Logged : Type := string * option Thrown.

Definition Json : Type := list (string * string).

Record World := mkWorld {
  clock : string;                                   (* new Date().toISOString() *)
  network : list (string * Json) -> Completion Response;
                                                    (* the answer to the latest POST *)
  latency : list (string * Json) -> Z;              (* ms until that answer arrives *)
  chain_send : list ContractCall -> option string;  (* contract.f(..): None resolves,
                                                       Some m rejects with Error(m) *)
  chain_wait : list ContractCall -> option string;  (* tx.wait(), likewise *)
  requests : list (string * Json);                  (* POSTs made, latest last *)
  console : list Logged;                            (* console.error calls *)
  calls : list ContractCall;                        (* contract calls submitted *)
  timers : list Z;                                  (* setTimeout delays awaited *)
  elapsed : Z                                       (* ms spent awaiting webhook
                                                       answers and timers *)
}.

Definition IO (A : Type) : Type := World -> Completion A * World.

Definition ret {A} (a : A) : IO A := fun w => (Resolved a, w).

Definition throw {A} (t : Thrown) : IO A := fun w => (Rejected t, w).

Definition bind {A B} (c : IO A) (k : A -> IO B) : IO B :=
  fun w => match c w with
           | (Resolved a, w') => k a w'
           | (Rejected t, w') => (Rejected t, w')
           end.

Definition try_catch {A} (body : IO A) (handler : Thrown -> IO A) : IO A :=
  fun w => match body w with
           | (Resolved a, w') => (Resolved a, w')
           | (Rejected t, w') => handler t w'
           end.

#[local] Notation "x <- c ;; k" := (bind c (fun x => k))
  (at level 100, c at next level, right associativity).
#[local] Notation "c ;;; k" := (bind c (fun _ => k))
  (at level 100, right associativity).

Definition date_now_iso : IO string := fun w => (Resolved (clock w), w).

(** [await fetch(url, { method: 'POST', ..., body })]: no timeout and no
    abort signal is passed, the caller resumes when the request settles. *)
Definition fetch (url : string) (body : Json) : IO Response :=
  fun w =>
    let posted := requests w ++ [(url, body)] in
    let w' := mkWorld (clock w) (network w) (latency w) (chain_send w) (chain_wait w)
                posted (console w) (calls w) (timers w)
                (elapsed w + latency w posted) in
    (network w posted, w').

(** [console.error(text)] and [console.error(text, value)] *)
Definition console_error (text : string) (value : option Thrown) : IO unit :=
  fun w => (Resolved tt,
            mkWorld (clock w) (network w) (latency w) (chain_send w) (chain_wait w)
              (requests w) (console w ++ [(text, value)]) (calls w) (timers w)
              (elapsed w)).

(** [await new Promise(resolve => setTimeout(resolve, delay))] *)
Definition sleep (delay : Z) : IO unit :=
  fun w => (Resolved tt,
            mkWorld (clock w) (network w) (latency w) (chain_send w) (chain_wait w)
              (requests w) (console w) (calls w) (timers w ++ [delay])
              (elapsed w + delay)).

(** [await contract.f(args)]: the call is submitted, then settles. *)
Definition contract_send (c : ContractCall) : IO unit :=
  fun w =>
    let submitted := calls w ++ [c] in
    let w' := mkWorld (clock w) (network w) (latency w) (chain_send w) (chain_wait w)
                (requests w) (console w) submitted (timers w) (elapsed w) in
    match chain_send w submitted with
    | None => (Resolved tt, w')
    | Some m => (Rejected (ErrorObject m), w')
    end.

Definition tx_wait : IO unit :=
  fun w => match chain_wait w (calls w) with
           | None => (Resolved tt, w)
           | Some m => (Rejected (ErrorObject m), w)
           end.

(** The body of the retried closures:
    [const tx = await contract.f(args); await tx.wait();] *)
Definition transaction (c : ContractCall) : IO unit :=
  contract_send c ;;; tx_wait.

(** [error.message]; reading a property of [undefined] throws. *)
Definition get_message (t : Thrown) : IO string :=
  match t with
  | ErrorObject m => ret m
  | Undefined =>
      throw (ErrorObject "Cannot read properties of undefined (reading 'message')")
  end.

(** A string in a condition: [undefined] and the empty string are false. *)
Definition truthy (v : option string) : bool :=
  match v with
  | Some s => negb (String.eqb s "")
  | None => false
  end.

(** A number in a condition: [0] and [NaN] are false. *)
Definition truthy_number (n : number) : bool :=
  match n with
  | Int n => negb (n =? 0)
  | Fraction _ | Infinity _ => true
  | NaN => false
  end.

(** Any value in a condition: [undefined], [null], [false], [0], [NaN] and
    the empty string are false, everything else is true. *)
Definition truthy_value (v : Value) : bool :=
  match v with
  | VUndefined | VNull => false
  | VBool b => b
  | VNumber n => truthy_number n
  | VString s => negb (String.eqb s "")
  | VObject _ => true
  end.

(** [Number(v)]; [parse] is the conversion of a string. *)
Definition to_number (parse : string -> number) (v : Value) : number :=
  match v with
  | VUndefined => NaN
  | VNull => Int 0
  | VBool b => Int (if b then 1 else 0)
  | VNumber n => n
  | VString s => parse s
  | VObject text => parse text
  end.

(** [a || b] on strings. *)
Definition js_or (a : option string) (b : string) : string :=
  if truthy a then default "" a else b.

Fixpoint drop_string (n : nat) (s : string) : string :=
  match n, s with
  | O, _ => s
  | S _, EmptyString => EmptyString
  | S n', String _ s' => drop_string n' s'
  end.

(** [s.replace(pattern, replacement)] with a string pattern: the first
    occurrence only. *)
Fixpoint replace_first (pattern replacement s : string) : string :=
  if String.prefix pattern s
  then replacement +:+ drop_string (String.length pattern) s
  else match s with
       | EmptyString => EmptyString
       | String c s' => String c (replace_first pattern replacement s')
       end.

(** [s.includes(pattern)] *)
Fixpoint includes (pattern s : string) : bool :=
  if String.prefix pattern s then true
  else match s with
       | EmptyString => false
       | String _ s' => includes pattern s'
       end.

End Js.

(** *** AlertManager *)

Module AlertManager.
Import Js.

#[local] Notation "x <- c ;; k" := (bind c (fun x => k))
  (at level 100, c at next level, right associativity).
#[local] Notation "c ;;; k" := (bind c (fun _ => k))
  (at level 100, right associativity).

Inductive Severity := info | warning | error.

Definition Severity_to_string (v : Severity) : string :=
  match v with info => "info" | warning => "warning" | error => "error" end.

Record AlertManager := mkAlertManager {
  webhookUrl : string;
  environment : string
}.

Definition sendAlert (this : AlertManager) (title message : string)
    (severity : Severity) : IO unit :=
  timestamp <- date_now_iso ;;
  let alert : Json :=
    [("title", title); ("message", message);
     ("severity", Severity_to_string severity);
     ("environment", environment this); ("timestamp", timestamp)] in
  try_catch
    (response <- fetch (webhookUrl this) alert ;;
     if negb (ok response)
     then console_error ("Failed to send alert: " +:+ statusText response) None
     else ret tt)
    (fun err => console_error "Error sending alert:" (Some err)).

(** The two senders built on [sendAlert].  JavaScript numbers are doubles:
    the comparisons and the printing of a number are taken as given. *)

Inductive Comparison := above | below.

Definition Comparison_to_string (c : Comparison) : string :=
  match c with above => "above" | below => "below" end.

Section Metric.
Variable number : Type.
Variable gt lt : number -> number -> bool.    (* value > threshold, value < threshold *)
Variable show : number -> string.             (* the number inside a template string *)

Definition sendMetricAlert (this : AlertManager) (metricName : string)
    (value threshold : number) (comparison : Comparison) : IO unit :=
  let condition :=
    match comparison with
    | above => gt value threshold
    | below => lt value threshold
    end in
  if condition then
    sendAlert this ("Metric Alert: " +:+ metricName)
      (metricName +:+ " is " +:+ Comparison_to_string comparison +:+
       " threshold. Current: " +:+ show value +:+ ", Threshold: " +:+ show threshold)
      warning
  else ret tt.

End Metric.

Inductive HealthStatus := healthy | unhealthy.

Definition HealthStatus_to_string (v : HealthStatus) : string :=
  match v with healthy => "healthy" | unhealthy => "unhealthy" end.

Definition sendHealthCheck (this : AlertManager) (service : string)
    (status : HealthStatus) (details : option string) : IO unit :=
  sendAlert this ("Health Check: " +:+ service)
    ("Service " +:+ service +:+ " is " +:+ HealthStatus_to_string status +:+
     (if truthy details then ": " +:+ default "" details else ""))
    (match status with healthy => info | unhealthy => error end).

(** The severity a posted alert carries. *)
Definition posted_severity (request : string * Json) : option string :=
  snd <$> List.find (fun kv => String.eqb (fst kv) "severity") (snd request).

End AlertManager.

(** *** GasRelayerService *)

Module GasRelayerService.
Import Js.

#[local] Notation "x <- c ;; k" := (bind c (fun x => k))
  (at level 100, c at next level, right associativity).
#[local] Notation "c ;;; k" := (bind c (fun _ => k))
  (at level 100, right associativity).

Record RetryOptions := mkRetryOptions {
  maxAttempts : Z;
  initialDelay : Z;
  maxDelay : Z
}.

Record GasRelayerService := mkService {
  alertManager : AlertManager.AlertManager;
  defaultRetryOptions : RetryOptions
}.

(** The field initialiser of the class. *)
Definition new_GasRelayerService (am : AlertManager.AlertManager) : GasRelayerService :=
  mkService am (mkRetryOptions 3 1000 10000).

(** The [for] loop of [retryWithBackoff]: [remaining] counts the iterations
    left before [attempt <= options.maxAttempts] fails. *)
Fixpoint retry_loop {T} (operation : IO T) (options : RetryOptions)
    (remaining : nat) (attempt : Z) (lastError : Thrown) : IO T :=
  match remaining with
  | O => throw lastError
  | S remaining' =>
      try_catch operation (fun err =>
        if attempt =? maxAttempts options then
          m <- get_message err ;;
          throw (ErrorObject ("Failed after " +:+ pretty attempt +:+
                              " attempts. Last error: " +:+ m))
        else
          let delay := Z.min (initialDelay options * 2 ^ (attempt - 1))
                             (maxDelay options) in
          sleep delay ;;;
          retry_loop operation options remaining' (attempt + 1) err)
  end.

Definition retryWithBackoff {T} (operation : IO T) (options : RetryOptions) : IO T :=
  retry_loop operation options (Z.to_nat (maxAttempts options)) 1 Undefined.

Definition compensateRelayer (this : GasRelayerService) (relayer : string)
    (gasUsed : number) : IO unit :=
  try_catch
    (retryWithBackoff
       (transaction (CompensateRelayerCall relayer gasUsed))
       (defaultRetryOptions this))
    (fun err =>
       m <- get_message err ;;
       AlertManager.sendAlert (alertManager this) "Relayer Compensation Failed"
         ("Failed to compensate relayer " +:+ relayer +:+ ": " +:+ m)
         AlertManager.info ;;;
       throw err).

Definition withdrawRelayerBalance (this : GasRelayerService) (relayer signer : string)
    : IO unit :=
  try_catch
    (retryWithBackoff
       (transaction (WithdrawRelayerBalanceCall signer))
       (defaultRetryOptions this))
    (fun err =>
       m <- get_message err ;;
       AlertManager.sendAlert (alertManager this) "Withdrawal Failed"
         ("Failed to withdraw relayer balance for " +:+ relayer +:+ ": " +:+ m)
         AlertManager.info ;;;
       throw err).

(** What the caller of a service method sees once the retried block has
    settled: the alert sent on the way never changes it. *)
Definition surfaced (r : Completion unit) : Completion unit :=
  match r with
  | Rejected Undefined =>
      Rejected (ErrorObject "Cannot read properties of undefined (reading 'message')")
  | _ => r
  end.

(** The contract calls a service invocation adds to the log. *)
Definition calls_made (before after : World) : list ContractCall :=
  drop (length (calls before)) (calls after).

(** How the [j]-th of the consecutive submissions of [c] that start in [w]
    ends: [None] if the call is taken and its receipt arrives, the error
    message if the submission or the wait for the receipt fails. *)
Definition attempt_error (w : World) (c : ContractCall) (j : nat) : option string :=
  let submitted := calls w ++ replicate j c in
  match chain_send w submitted with
  | Some m => Some m
  | None => chain_wait w submitted
  end.

(** The time a run has spent awaiting webhook answers and timers. *)
Definition waited (before after : World) : Z := elapsed after - elapsed before.

End GasRelayerService.

(** *** The rate-limit middleware ([middleware/rateLimit.ts])

    The two module-level maps are the limiter's state; [Date.now()] is an
    input of each call that reads it. *)

Module RateLimit.
Import Js.

#[local] Notation "x <- c ;; k" := (bind c (fun x => k))
  (at level 100, c at next level, right associativity).
#[local] Notation "c ;;; k" := (bind c (fun _ => k))
  (at level 100, right associativity).

Record ViolationRecord := mkViolation { count : Z; lastViolation : Z }.

Record Block := mkBlock { until : Z; reason : string }.

Record Limiter := mkLimiter {
  violations : gmap string ViolationRecord;
  blockedIPs : gmap string Block
}.

Record Request := mkRequest {
  ip : option string;                    (* req.ip *)
  remoteAddress : option string;         (* req.connection.remoteAddress *)
  authorization : option string;         (* req.headers.authorization *)
  path : string
}.

Record HttpResponse := mkHttp {
  status : Z;
  success : bool;
  code : string;
  message : string;
  retryAfter : option Z
}.

Definition DAY_MS : Z := 24 * 60 * 60 * 1000.

Definition public_windowMs : Z := 60 * 1000.
Definition public_max : Z := 100.
Definition authenticated_max : Z := 1000.

(** [req.ip || req.connection.remoteAddress || 'unknown'] *)
Definition client_ip (req : Request) : string :=
  js_or (if truthy (ip req) then ip req else remoteAddress req) "unknown".

Definition trackViolation (ip : string) (now : Z)
    (violations : gmap string ViolationRecord) : Z * gmap string ViolationRecord :=
  let record := default (mkViolation 0 0) (violations !! ip) in
  let count0 := if DAY_MS <? now - lastViolation record then 0 else count record in
  let record' := mkViolation (count0 + 1) now in
  let violations' := <[ip := record']> violations in
  (count record',
   filter (fun kv => ~ DAY_MS < now - lastViolation (snd kv)) violations').

(** The expression that sets how long an address is blocked. *)
Definition blockDuration (violations : Z) : Z :=
  Z.min (2 ^ (violations - 5)) 24 * 60 * 60 * 1000.

(** The [handler] option of the limiter: what runs when a client is over
    its limit.  [now] is the clock read by [trackViolation], [now'] the one
    read when the block is set. *)
Definition handler (am : AlertManager.AlertManager) (req : Request)
    (now now' : Z) (st : Limiter) : IO (HttpResponse * Limiter) :=
  let ip := client_ip req in
  let '(n, tracked) := trackViolation ip now (violations st) in
  let blocked :=
    if 5 <=? n
    then <[ip := mkBlock (now' + blockDuration n) "Excessive rate limit violations"]>
           (blockedIPs st)
    else blockedIPs st in
  AlertManager.sendAlert am "Rate Limit Exceeded"
    ("IP " +:+ ip +:+ " exceeded rate limit (violations: " +:+ pretty n +:+ ")")
    AlertManager.warning ;;;
  ret (mkHttp 429 false "RATE_LIMITED" "Too many requests, please try again later"
         (Some (public_windowMs / 1000)),
       mkLimiter tracked blocked).

Section Keys.
Variable format_ok : string -> bool.      (* the API-key pattern of [isValidApiKey] *)
Variable validKeys : list string.         (* the entries of VALID_API_KEYS *)
Variable toISOString : Z -> string.       (* new Date(ms).toISOString() *)

Definition isValidApiKey (apiKey : string) : bool :=
  if String.eqb apiKey "" then false
  else if negb (format_ok apiKey) then false
  else bool_decide (apiKey ∈ validKeys).

(** The [max] option of the limiter: the block check, then the limit of
    the request.  [now] and [now'] are the two clock reads. *)
Definition max (req : Request) (now now' : Z) (blocked : gmap string Block)
    : Completion Z * gmap string Block :=
  let ip := client_ip req in
  match blocked !! ip with
  | Some b =>
      if now <? until b then
        (Rejected (ErrorObject ("IP blocked until " +:+ toISOString (until b) +:+
                                ": " +:+ reason b)),
         blocked)
      else
        let blocked' := if until b <=? now' then delete ip blocked else blocked in
        let apiKey := js_or (replace_first "Bearer " "" <$> authorization req) "" in
        (Resolved (if negb (String.eqb apiKey "") && isValidApiKey apiKey
                   then authenticated_max else public_max),
         blocked')
  | None =>
      let apiKey := js_or (replace_first "Bearer " "" <$> authorization req) "" in
      (Resolved (if negb (String.eqb apiKey "") && isValidApiKey apiKey
                 then authenticated_max else public_max),
       blocked)
  end.

End Keys.

(** The [catch] of [withRateLimit]: how an error of the limiter is
    answered. *)
Definition withRateLimit_catch (err : Thrown) : Completion HttpResponse :=
  match err with
  | Undefined =>
      Rejected (ErrorObject "Cannot read properties of undefined (reading 'message')")
  | ErrorObject m =>
      let isBlocked := includes "IP blocked" m in
      Resolved (mkHttp (if isBlocked then 403 else 500) false
                  (if isBlocked then "IP_BLOCKED" else "SERVER_ERROR")
                  (js_or (Some m) "Internal server error") None)
  end.

(** Violations of one address at the given times, in order. *)
Fixpoint track_run (ip : string) (times : list Z)
    (violations : gmap string ViolationRecord) : list Z * gmap string ViolationRecord :=
  match times with
  | [] => ([], violations)
  | now :: rest =>
      let '(n, violations') := trackViolation ip now violations in
      let '(ns, violations'') := track_run ip rest violations' in
      (n :: ns, violations'')
  end.

(** Each time lies no more than 24 hours after the one before. *)
Fixpoint each_within_a_day (previous : Z) (times : list Z) : Prop :=
  match times with
  | [] => True
  | now :: rest => now - previous <= DAY_MS /\ each_within_a_day now rest
  end.

End RateLimit.

(** *** The gas-relayer API route ([pages/api/gas-relayer/index.ts])

    A request as the handlers read it: the method, the [action] query
    parameter and the two body fields, each a string (an integer for
    [gasUsed]) or absent. *)

Module Api.
Import Js.

#[local] Notation "x <- c ;; k" := (bind c (fun x => k))
  (at level 100, c at next level, right associativity).
#[local] Notation "c ;;; k" := (bind c (fun _ => k))
  (at level 100, right associativity).

Record Request := mkRequest {
  method : string;
  action : option string;                (* req.query.action *)
  relayer : option string;               (* req.body.relayer *)
  gasUsed : Value                        (* req.body.gasUsed *)
}.

(** [res.status(status).json({ success, error: { code, message } })];
    the replies to a successful POST carry [success] alone. *)
Record Response := mkResponse {
  status : Z;
  success : bool;
  error : option (string * string)
}.

Section Handlers.
Variable isAddress : string -> bool.               (* ethers.isAddress *)
Variable parseNumber : string -> number.           (* Number(s) of a string *)
Variable gasRelayerAddress : option string.        (* GAS_RELAYER_CONTRACT_ADDRESS *)
Variable gasRelayerService : GasRelayerService.GasRelayerService.
Variable relayerWallet : Completion string.
  (* new ethers.Wallet(RELAYER_PRIVATE_KEY || '', provider): the signer, or what it throws *)
Variables handleEstimate handleBalance : Request -> IO Response.

Definition handleCompensate (req : Request) : IO Response :=
  try_catch
    (if negb (truthy (relayer req))
        || negb (isAddress (default "" (relayer req)))
        || negb (truthy_value (gasUsed req))
     then ret (mkResponse 400 false
                 (Some ("INVALID_PARAMETERS",
                        "Valid relayer address and gas used required")))
     else
       GasRelayerService.compensateRelayer gasRelayerService
         (default "" (relayer req)) (to_number parseNumber (gasUsed req)) ;;;
       ret (mkResponse 200 true None))
    (fun err =>
       m <- get_message err ;;
       ret (mkResponse 500 false (Some ("COMPENSATION_FAILED", m)))).

Definition handleWithdraw (req : Request) : IO Response :=
  try_catch
    (if negb (truthy (relayer req))
        || negb (isAddress (default "" (relayer req)))
     then ret (mkResponse 400 false
                 (Some ("INVALID_ADDRESS", "Valid relayer address required")))
     else
       wallet <- (fun w => (relayerWallet, w)) ;;
       GasRelayerService.withdrawRelayerBalance gasRelayerService
         (default "" (relayer req)) wallet ;;;
       ret (mkResponse 200 true None))
    (fun err =>
       m <- get_message err ;;
       ret (mkResponse 500 false (Some ("WITHDRAWAL_FAILED", m)))).

Definition invalid_action : Response :=
  mkResponse 400 false (Some ("INVALID_ACTION", "Invalid action specified")).

Definition handler (req : Request) : IO Response :=
  if negb (truthy gasRelayerAddress)
     || negb (isAddress (default "" gasRelayerAddress))
  then ret (mkResponse 500 false
              (Some ("CONTRACT_NOT_CONFIGURED",
                     "Gas relayer contract address not properly configured")))
  else if String.eqb (method req) "GET" then
    match action req with
    | Some "estimate" => handleEstimate req
    | Some "balance" => handleBalance req
    | _ => ret invalid_action
    end
  else if String.eqb (method req) "POST" then
    match action req with
    | Some "compensate" => handleCompensate req
    | Some "withdraw" => handleWithdraw req
    | _ => ret invalid_action
    end
  else ret (mkResponse 405 false
              (Some ("METHOD_NOT_ALLOWED", "HTTP method not allowed"))).

End Handlers.

End Api.

(** ** A deployment used in the examples *)

Module Scenario.
Import GasRelayer.

Definition deployer : Z := 1.
Definition alice : Z := 5.
Definition token : Z := 7.

(** A block at time [now], a call by [sender] at gas price [price], with
    the token holding 1000 WDOGE for the contract and answering a
    transfer with [answer]. *)
Definition block (sender now price : Z) (answer : TransferOutcome) : Env :=
  mkEnv sender now price 0 (fun _ => Some (1000 * ether))
    (fun _ _ _ => answer) (fun _ _ => true).

Definition genesis : Env := block deployer 1000 (100 * gwei) ReturnsTrue.

Definition deployed : State :=
  mkState token (100 * gwei) 1000 110 ∅ 0 0 1000 false false
    {[ (DEFAULT_ADMIN_ROLE, deployer); (RELAYER_ROLE, deployer);
       (ORACLE_ROLE, deployer) ]}.

(** After the deployer has compensated [alice] for 50000 gas. *)
Definition funded : State :=
  fst (exec (CompensateRelayer alice 50000)
         (block deployer 2000 (100 * gwei) ReturnsTrue) deployed).

(** After the deployer has paused the contract. *)
Definition halted : State :=
  fst (exec Pause (block deployer 2000 (100 * gwei) ReturnsTrue) deployed).

(** The service, with its webhook, and three worlds: a chain that rejects
    every submission, a chain that takes every submission and then fails
    the wait for the receipt, and a chain that rejects every submission
    while the webhook takes ten minutes to answer. *)
Definition service : GasRelayerService.GasRelayerService :=
  GasRelayerService.new_GasRelayerService
    (AlertManager.mkAlertManager "https://alerts.example/hook" "production").

Definition rejecting : Js.World :=
  Js.mkWorld "2024-02-01T00:00:00.000Z"
    (fun _ => Js.Resolved (Js.mkResponse true "OK")) (fun _ => 120)
    (fun _ => Some "execution reverted") (fun _ => None) [] [] [] [] 0.

Definition stalling : Js.World :=
  Js.mkWorld "2024-02-01T00:00:00.000Z"
    (fun _ => Js.Resolved (Js.mkResponse true "OK")) (fun _ => 120)
    (fun _ => None) (fun _ => Some "timeout") [] [] [] [] 0.

Definition slow_webhook : Js.World :=
  Js.mkWorld "2024-02-01T00:00:00.000Z"
    (fun _ => Js.Resolved (Js.mkResponse true "OK")) (fun _ => 600000)
    (fun _ => Some "execution reverted") (fun _ => None) [] [] [] [] 0.

(** A chain whose first answer is a rejection and which takes the
    resubmission. *)
Definition recovering : Js.World :=
  Js.mkWorld "2024-02-01T00:00:00.000Z"
    (fun _ => Js.Resolved (Js.mkResponse true "OK")) (fun _ => 120)
    (fun submitted => if (length submitted <=? 1)%nat then Some "nonce too low" else None)
    (fun _ => None) [] [] [] [] 0.


End Scenario.

(** ** Properties of the contract *)

Import GasRelayer.

(** *** Symbolic execution of a call *)

Ltac tx_unfold :=
  unfold exec, transact, staticcall, dispatch,
    updateGasPrice, estimateGasFee, compensateRelayer, resetDailyLimit,
    withdrawRelayerBalance, setRelayerFeeMultiplier, pause, unpause,
    emergencyWithdraw, grantRole, revokeRole, renounceRole,
    nonReentrant, onlyRole, whenNotPaused, whenPaused, require,
    checked_add, checked_sub, checked_mul, balanceOfRelayer in *.

Ltac tx_beta :=
  cbv beta iota zeta delta [bind ret revert get modify emit fst snd] in *;
  cbn [wdoge gasPrice gasPriceLastUpdated relayerFeeMultiplier relayerBalances
       totalRelayerBalance dailyCompensation lastDailyReset paused entered
       roles set_gasPrice set_gasPriceLastUpdated set_relayerFeeMultiplier
       set_relayerBalances set_totalRelayerBalance set_dailyCompensation
       set_lastDailyReset set_paused set_entered set_roles negb] in *.

Ltac tx_case :=
  match goal with
  | |- context [if ?b then _ else _] => destruct b eqn:?
  | |- context [match token_balanceOf ?e ?t with _ => _ end] =>
      destruct (token_balanceOf e t) eqn:?
  | |- context [match token_transfer ?e ?t ?a ?b with _ => _ end] =>
      destruct (token_transfer e t a b) eqn:?
  end.

Ltac tx_run := tx_unfold; tx_beta; repeat (tx_case; tx_beta).

(** Boolean tests of the code as propositions. *)
Ltac tests_to_props :=
  repeat match goal with
  | H : (_ <=? _) = true |- _ => apply Z.leb_le in H
  | H : (_ <=? _) = false |- _ => apply Z.leb_gt in H
  | H : (_ <? _) = true |- _ => apply Z.ltb_lt in H
  | H : (_ <? _) = false |- _ => apply Z.ltb_ge in H
  | H : (_ =? _) = true |- _ => apply Z.eqb_eq in H
  | H : (_ =? _) = false |- _ => apply Z.eqb_neq in H
  | H : (_ || _) = true |- _ => apply orb_true_iff in H
  | H : (_ || _) = false |- _ => apply orb_false_iff in H; destruct H
  | H : negb _ = true |- _ => apply negb_true_iff in H
  | H : negb _ = false |- _ => apply negb_false_iff in H
  end.

(** *** Sums over the balance mapping *)

Lemma sum_balances_empty : sum_balances ∅ = 0.
Proof. apply map_fold_empty. Qed.

Lemma sum_balances_fresh (m : gmap Z Z) k v :
  m !! k = None -> sum_balances (<[k := v]> m) = v + sum_balances m.
Proof.
  intros Hk. unfold sum_balances.
  rewrite map_fold_insert_L; [reflexivity | intros; lia | exact Hk].
Qed.

Lemma sum_balances_delete (m : gmap Z Z) k :
  sum_balances m = default 0 (m !! k) + sum_balances (delete k m).
Proof.
  destruct (m !! k) as [x|] eqn:Hk; simpl.
  - unfold sum_balances.
    rewrite (map_fold_delete_L _ _ k x m); [reflexivity | intros; lia | exact Hk].
  - rewrite delete_id by exact Hk. lia.
Qed.

Lemma sum_balances_insert (m : gmap Z Z) k v :
  sum_balances (<[k := v]> m) = sum_balances m - default 0 (m !! k) + v.
Proof.
  rewrite <- (insert_delete_eq m k v).
  rewrite sum_balances_fresh by apply lookup_delete_eq.
  rewrite (sum_balances_delete m k). lia.
Qed.

Lemma sum_balances_nonneg (m : gmap Z Z) :
  (forall k, 0 <= default 0 (m !! k)) -> 0 <= sum_balances m.
Proof.
  induction m as [|k v m Hk IH] using map_ind; intros Hpos.
  - rewrite sum_balances_empty. lia.
  - rewrite sum_balances_fresh by exact Hk.
    assert (0 <= v).
    { specialize (Hpos k). rewrite lookup_insert_eq in Hpos. exact Hpos. }
    assert (0 <= sum_balances m).
    { apply IH. intros j. destruct (decide (k = j)) as [->|Hne].
      - rewrite Hk. simpl. lia.
      - specialize (Hpos j). rewrite lookup_insert_ne in Hpos by exact Hne.
        exact Hpos. }
    lia.
Qed.

Lemma sum_balances_bound (m : gmap Z Z) k :
  (forall j, 0 <= default 0 (m !! j)) -> default 0 (m !! k) <= sum_balances m.
Proof.
  intros Hpos. rewrite (sum_balances_delete m k).
  assert (0 <= sum_balances (delete k m)); [|lia].
  apply sum_balances_nonneg. intros j.
  destruct (decide (k = j)) as [->|Hne].
  - rewrite lookup_delete_eq. simpl. lia.
  - rewrite lookup_delete_ne by exact Hne. apply Hpos.
Qed.

(** *** The storage invariant *)

Lemma inv_constructor w e s : constructor w e = inr s -> inv s.
Proof.
  unfold constructor. destruct (w =? 0); [discriminate|].
  intros [= <-]. split; simpl; unfold balanceOfRelayer; simpl;
    try (intros; rewrite ?lookup_empty; simpl);
    try rewrite sum_balances_empty;
    unfold MIN_GAS_PRICE, MAX_GAS_PRICE, MAX_DAILY_COMPENSATION, gwei, ether; lia.
Qed.

Lemma div100_nonneg x : 0 <= x -> 0 <= x / 100.
Proof. intros. apply Z.div_pos; lia. Qed.

Lemma div100_le x : 0 <= x -> x / 100 <= x.
Proof. intros. apply Z.div_le_upper_bound; lia. Qed.

Lemma div100_mul_le x : 100 * (x / 100) <= x.
Proof. apply Z.mul_div_le. lia. Qed.

Lemma cap_far_below_uint256 : 100 * MAX_DAILY_COMPENSATION <= 99 * MAX_UINT256.
Proof. vm_compute. discriminate. Qed.

Lemma inv_exec c e s : inv s -> wf_call c -> inv (fst (exec c e s)).
Proof.
  intros [Hp Hm Hd Hb Ht He] Hwf.
  destruct c; simpl in Hwf.
  all: tx_run.
  all: try (split; assumption).
  all: split; unfold balanceOfRelayer; tx_beta; try assumption; try lia.
  all: tests_to_props; unfold uint256 in *.
  all: try (rewrite sum_balances_insert; lia).
  all: try (assert (0 <= (gasPrice s * gasUsed * relayerFeeMultiplier s) `div` 100)
         by (apply div100_nonneg; unfold MIN_GAS_PRICE, gwei in *; nia)).
  all: try lia.
  all: intros a; pose proof (Hb a);
       match goal with
       | |- context [<[?k := _]> _ !! a] =>
           destruct (decide (k = a)) as [->|Hne];
           [rewrite lookup_insert_eq; simpl; lia
           |rewrite lookup_insert_ne by exact Hne; assumption]
       end.
Qed.

Theorem reachable_inv s : reachable s -> inv s.
Proof.
  induction 1 as [w e s Hs | c e s _ IH Hwf].
  - eapply inv_constructor; eassumption.
  - apply inv_exec; assumption.
Qed.

Lemma deployed_reachable : reachable Scenario.deployed.
Proof.
  apply (reachable_deploy Scenario.token Scenario.genesis). reflexivity.
Qed.

Lemma funded_reachable : reachable Scenario.funded.
Proof.
  apply reachable_exec; [exact deployed_reachable|].
  unfold wf_call, uint256. split; apply Z.leb_le; reflexivity.
Qed.

Lemma halted_reachable : reachable Scenario.halted.
Proof. apply reachable_exec; [exact deployed_reachable | exact I]. Qed.

(** *** The circuit breaker *)

Lemma resetDailyLimit_run e s log :
  lastDailyReset s + 1 * days <= MAX_UINT256 ->
  resetDailyLimit e (s, log) =
    if lastDailyReset s + 1 * days <=? block_timestamp e
    then inr (tt, (set_lastDailyReset (block_timestamp e) (set_dailyCompensation 0 s),
                   log ++ [DailyLimitReset (block_timestamp e)]))
    else inr (tt, (s, log)).
Proof.
  intros Hfit. apply Z.leb_le in Hfit.
  tx_unfold; tx_beta. rewrite Hfit. tx_beta.
  destruct (_ <=? block_timestamp e); reflexivity.
Qed.

(** C1 (circuit breaker).  For a caller holding [RELAYER_ROLE] on a
    reachable, unpaused contract, let [s1] be storage after the reset step
    that opens [compensateRelayer].  A call whose compensation added to
    [dailyCompensation s1] exceeds [MAX_DAILY_COMPENSATION] reverts with
    [DailyLimitExceeded] and leaves storage as it was: nothing is credited.
    An accepted call adds exactly its compensation to that running total,
    which stays within the cap.  The reset step zeroes the total (and
    restarts the window) exactly when [block.timestamp >= lastDailyReset +
    1 days], and otherwise changes nothing.  At every reachable state
    [dailyCompensation] is within the cap. *)
Theorem C1_circuit_breaker :
  (forall relayer gasUsed e s s1 log,
      reachable s -> uint256 gasUsed ->
      hasRole s RELAYER_ROLE (msg_sender e) = true -> paused s = false ->
      resetDailyLimit e (s, []) = inr (tt, (s1, log)) ->
      gasPrice s * gasUsed * relayerFeeMultiplier s <= MAX_UINT256 ->
      let compensation := gasPrice s * gasUsed * relayerFeeMultiplier s / 100 in
      (dailyCompensation s1 + compensation > MAX_DAILY_COMPENSATION ->
       exec (CompensateRelayer relayer gasUsed) e s =
         (s, Reverted (DailyLimitExceeded compensation
                         (MAX_DAILY_COMPENSATION - dailyCompensation s1)))) /\
      (forall s' evs,
          exec (CompensateRelayer relayer gasUsed) e s = (s', Succeeded evs) ->
          dailyCompensation s' = dailyCompensation s1 + compensation /\
          dailyCompensation s' <= MAX_DAILY_COMPENSATION)) /\
  (forall e s,
      lastDailyReset s + 1 * days <= MAX_UINT256 ->
      resetDailyLimit e (s, []) =
        if lastDailyReset s + 1 * days <=? block_timestamp e
        then inr (tt, (set_lastDailyReset (block_timestamp e)
                         (set_dailyCompensation 0 s),
                       [DailyLimitReset (block_timestamp e)]))
        else inr (tt, (s, []))) /\
  (forall s, reachable s -> 0 <= dailyCompensation s <= MAX_DAILY_COMPENSATION).
Proof.
  split; [|split].
  - intros relayer gasUsed e s s1 log Hreach Hgas Hrole Hpause Hreset Hfit compensation.
    destruct (reachable_inv s Hreach) as [Hp Hm Hd Hb Ht He].
    subst compensation. revert Hreset. unfold uint256 in Hgas.
    assert (Hpart : gasPrice s * gasUsed <= MAX_UINT256)
      by (unfold MIN_GAS_PRICE, gwei in Hp; nia).
    assert (Hc : 0 <= gasPrice s * gasUsed * relayerFeeMultiplier s / 100)
      by (apply div100_nonneg; unfold MIN_GAS_PRICE, gwei in Hp; nia).
    assert (Hc' : gasPrice s * gasUsed * relayerFeeMultiplier s / 100
                  <= gasPrice s * gasUsed * relayerFeeMultiplier s)
      by (apply div100_le; unfold MIN_GAS_PRICE, gwei in Hp; nia).
    pose proof (div100_mul_le (gasPrice s * gasUsed * relayerFeeMultiplier s)) as Hc100.
    pose proof cap_far_below_uint256 as Hcap.
    tx_run.
    all: tests_to_props; try congruence; try lia.
    all: intros Hreset; simplify_eq.
    all: (split; [intros Hover | intros s' evs Hexec; simplify_eq]); tx_beta.
    all: try lia.
    all: try (unfold MAX_DAILY_COMPENSATION, MAX_UINT256, ether in *; lia).
    all: try (repeat f_equal; lia).
  - intros e s Hfit. apply resetDailyLimit_run. exact Hfit.
  - intros s Hreach. apply reachable_inv. exact Hreach.
Qed.

Lemma C1_circuit_breaker_witness :
  let e := Scenario.block Scenario.deployer 2000 (100 * gwei) ReturnsTrue in
  exec (CompensateRelayer Scenario.alice (10 ^ 10)) e Scenario.deployed =
    (Scenario.deployed,
     Reverted (DailyLimitExceeded (1100 * ether) (1000 * ether))).
Proof.
  intro e.
  refine (proj1 (proj1 C1_circuit_breaker Scenario.alice (10 ^ 10) e
                   Scenario.deployed Scenario.deployed []
                   deployed_reachable _ _ _ _ _) _).
  - unfold uint256. split; apply Z.leb_le; reflexivity.
  - reflexivity.
  - reflexivity.
  - reflexivity.
  - apply Z.leb_le. reflexivity.
  - reflexivity.
Defined.

(** *** Compensation *)

(** What an accepted [compensateRelayer] call does to storage. *)
Lemma compensateRelayer_accepted relayer gasUsed e s s' evs :
  exec (CompensateRelayer relayer gasUsed) e s = (s', Succeeded evs) ->
  let compensation := gasPrice s * gasUsed * relayerFeeMultiplier s / 100 in
  balanceOfRelayer s' relayer = balanceOfRelayer s relayer + compensation /\
  totalRelayerBalance s' = totalRelayerBalance s + compensation /\
  (forall a, a <> relayer -> balanceOfRelayer s' a = balanceOfRelayer s a) /\
  RelayerCompensated relayer compensation ∈ evs /\
  gasPrice s' = gasPrice s /\ relayerFeeMultiplier s' = relayerFeeMultiplier s.
Proof.
  intros Hexec compensation. subst compensation. revert Hexec.
  tx_run.
  all: intros Hexec; simplify_eq.
  all: unfold balanceOfRelayer; tx_beta.
  all: rewrite lookup_insert_eq; simpl.
  all: repeat split; try reflexivity.
  all: try (intros a Hne; rewrite lookup_insert_ne by congruence; reflexivity).
  all: set_solver.
Qed.

(** C3 (compensation amount).  Every accepted [compensateRelayer(relayer,
    gasUsed)] adds exactly [gasPrice * gasUsed * relayerFeeMultiplier / 100]
    (integer division) to the relayer's balance and emits
    [RelayerCompensated] with that amount; at a price of 100 gwei, a
    multiplier of 110 and 50000 gas the balance grows by 5.5e15. *)
Theorem C3_compensation_amount :
  forall relayer gasUsed e s s' evs,
    exec (CompensateRelayer relayer gasUsed) e s = (s', Succeeded evs) ->
    let compensation := gasPrice s * gasUsed * relayerFeeMultiplier s / 100 in
    balanceOfRelayer s' relayer = balanceOfRelayer s relayer + compensation /\
    RelayerCompensated relayer compensation ∈ evs /\
    (gasPrice s = 100 * 10 ^ 9 -> relayerFeeMultiplier s = 110 -> gasUsed = 50000 ->
     balanceOfRelayer s' relayer = balanceOfRelayer s relayer + 55 * 10 ^ 14).
Proof.
  intros relayer gasUsed e s s' evs Hexec compensation.
  destruct (compensateRelayer_accepted _ _ _ _ _ _ Hexec) as (Hbal & _ & _ & Hev & _).
  split; [exact Hbal|]. split; [exact Hev|].
  intros Hprice Hmult Hgas. rewrite Hbal, Hprice, Hmult, Hgas. reflexivity.
Qed.

Lemma C3_compensation_amount_witness :
  let e := Scenario.block Scenario.deployer 2000 (100 * gwei) ReturnsTrue in
  let s' := fst (exec (CompensateRelayer Scenario.alice 50000) e Scenario.deployed) in
  balanceOfRelayer s' Scenario.alice = 5500000000000000 /\
  RelayerCompensated Scenario.alice 5500000000000000
    ∈ [RelayerCompensated Scenario.alice 5500000000000000].
Proof.
  intros e s'.
  assert (Hexec : exec (CompensateRelayer Scenario.alice 50000) e Scenario.deployed
                  = (s', Succeeded [RelayerCompensated Scenario.alice 5500000000000000]))
    by reflexivity.
  destruct (C3_compensation_amount _ _ _ _ _ _ Hexec) as (Hbal & Hev & _).
  split; [exact Hbal | exact Hev].
Defined.

(** C10 (balance sum).  At every reachable state [totalRelayerBalance] is
    the sum of [relayerBalances] over all addresses, and every call from a
    reachable state leaves it so.  An accepted [compensateRelayer] raises
    the relayer's balance and the total by the same amount, the
    compensation [gasPrice * gasUsed * relayerFeeMultiplier / 100], which
    is not negative; an accepted [withdrawRelayerBalance] lowers the
    caller's balance and the total by the same amount, the caller's whole
    balance, which is positive; no other balance moves. *)
Theorem C10_balance_sum :
  (forall s, reachable s ->
     totalRelayerBalance s = sum_balances (relayerBalances s)) /\
  (forall c e s, reachable s -> wf_call c ->
     totalRelayerBalance (fst (exec c e s)) =
     sum_balances (relayerBalances (fst (exec c e s)))) /\
  (forall relayer gasUsed e s s' evs,
     exec (CompensateRelayer relayer gasUsed) e s = (s', Succeeded evs) ->
     let amount := gasPrice s * gasUsed * relayerFeeMultiplier s / 100 in
     balanceOfRelayer s' relayer = balanceOfRelayer s relayer + amount /\
     totalRelayerBalance s' = totalRelayerBalance s + amount /\
     (forall a, a <> relayer -> balanceOfRelayer s' a = balanceOfRelayer s a) /\
     (reachable s -> 0 <= gasUsed -> 0 <= amount)) /\
  (forall e s s' evs,
     exec WithdrawRelayerBalance e s = (s', Succeeded evs) ->
     let amount := balanceOfRelayer s (msg_sender e) in
     balanceOfRelayer s' (msg_sender e) = balanceOfRelayer s (msg_sender e) - amount /\
     totalRelayerBalance s' = totalRelayerBalance s - amount /\
     (forall a, a <> msg_sender e -> balanceOfRelayer s' a = balanceOfRelayer s a) /\
     amount <> 0 /\
     (reachable s -> 0 < amount)).
Proof.
  split; [|split; [|split]].
  - intros s Hreach. apply reachable_inv. exact Hreach.
  - intros c e s Hreach Hwf. apply reachable_inv.
    apply reachable_exec; assumption.
  - intros relayer gasUsed e s s' evs Hexec amount. subst amount.
    destruct (compensateRelayer_accepted _ _ _ _ _ _ Hexec) as (Hbal & Htot & Hoth & _).
    split; [exact Hbal|]. split; [exact Htot|]. split; [exact Hoth|].
    intros Hreach Hgas.
    destruct (reachable_inv s Hreach) as [Hp Hm _ _ _ _].
    apply div100_nonneg. unfold MIN_GAS_PRICE, gwei in Hp. nia.
  - intros e s s' evs Hexec amount. subst amount.
    assert (Hpos : reachable s -> 0 <= balanceOfRelayer s (msg_sender e))
      by (intros Hr; apply (inv_balances s (reachable_inv s Hr))).
    revert Hexec Hpos. tx_run.
    all: intros Hexec Hpos; simplify_eq; tests_to_props.
    unfold balanceOfRelayer; tx_beta. rewrite lookup_insert_eq. simpl.
    split; [lia|]. split; [reflexivity|]. split; [|split].
    + intros a Hne. rewrite lookup_insert_ne by congruence. reflexivity.
    + assumption.
    + intros Hr. specialize (Hpos Hr). lia.
Qed.

Lemma C10_balance_sum_witness :
  let e := Scenario.block Scenario.alice 3000 (100 * gwei) ReturnsTrue in
  let s' := fst (exec WithdrawRelayerBalance e Scenario.funded) in
  totalRelayerBalance Scenario.funded = sum_balances (relayerBalances Scenario.funded) /\
  balanceOfRelayer s' Scenario.alice = 0 /\
  totalRelayerBalance s' = 0 /\
  0 < balanceOfRelayer Scenario.funded Scenario.alice.
Proof.
  intros e s'.
  destruct C10_balance_sum as (Hinv & _ & _ & Hwithdraw).
  assert (Hexec : exec WithdrawRelayerBalance e Scenario.funded = (s', Succeeded []))
    by (vm_compute; reflexivity).
  destruct (Hwithdraw e Scenario.funded s' [] Hexec) as (Hbal & Htot & _ & _ & Hpos).
  split; [exact (Hinv Scenario.funded funded_reachable)|].
  split; [|split].
  - change (msg_sender e) with Scenario.alice in Hbal. lia.
  - assert (Hall : totalRelayerBalance Scenario.funded =
                   balanceOfRelayer Scenario.funded Scenario.alice)
      by (vm_compute; reflexivity).
    change (msg_sender e) with Scenario.alice in Htot. lia.
  - exact (Hpos funded_reachable).
Defined.

(** *** Reverts roll back *)

Lemma revert_rolls_back c e s err :
  snd (exec c e s) = Reverted err -> fst (exec c e s) = s.
Proof.
  unfold exec, transact.
  destruct (dispatch c e (s, [])) as [err'|[[] [s' evs]]]; simpl.
  - reflexivity.
  - discriminate.
Qed.

(** *** Withdrawal *)

(** C4 (withdrawal).  On a reachable, unpaused contract whose token
    reports [available] for the contract: a caller with a zero balance is
    rejected with [InsufficientBalance(0, 0)]; a caller whose balance
    exceeds [available] is rejected with [InsufficientBalance(balance,
    available)]; otherwise the token is asked to transfer the balance to
    the caller and, if it returns true, the caller's balance is zero and
    the total is lower by exactly the prior balance, while a transfer that
    returns false or reverts rejects the call.  Whenever the call is
    rejected, storage is unchanged. *)
Theorem C4_withdraw :
  forall e s available,
    reachable s -> paused s = false ->
    token_balanceOf e (wdoge s) = Some available ->
    let caller := msg_sender e in
    let balance := balanceOfRelayer s caller in
    (balance = 0 ->
     exec WithdrawRelayerBalance e s = (s, Reverted (InsufficientBalance 0 0))) /\
    (balance <> 0 -> available < balance ->
     exec WithdrawRelayerBalance e s =
       (s, Reverted (InsufficientBalance balance available))) /\
    (balance <> 0 -> balance <= available ->
     exec WithdrawRelayerBalance e s =
       match token_transfer e (wdoge s) caller balance with
       | ReturnsTrue =>
           (set_totalRelayerBalance (totalRelayerBalance s - balance)
              (set_relayerBalances (<[caller := 0]> (relayerBalances s)) s),
            Succeeded [])
       | ReturnsFalse => (s, Reverted TransferFailed)
       | Reverts => (s, Reverted ExternalRevert)
       end) /\
    (forall err, snd (exec WithdrawRelayerBalance e s) = Reverted err ->
                 fst (exec WithdrawRelayerBalance e s) = s).
Proof.
  intros e s available Hreach Hpause Htoken caller balance.
  destruct (reachable_inv s Hreach) as [Hp Hm Hd Hb Ht He].
  pose proof (sum_balances_bound (relayerBalances s) caller Hb) as Hle.
  rewrite <- Ht in Hle.
  split; [|split; [|split]]; [| | |apply revert_rolls_back].
  all: subst caller balance; intros.
  all: tx_unfold; tx_beta.
  all: repeat (first [rewrite He | rewrite Hpause | rewrite Htoken | tx_case];
               tx_beta).
  all: tests_to_props; try reflexivity; try lia.
  unfold set_entered, set_totalRelayerBalance, set_relayerBalances.
  tx_beta. rewrite He. reflexivity.
Qed.

Lemma C4_withdraw_witness :
  let e := Scenario.block Scenario.alice 3000 (100 * gwei) ReturnsTrue in
  let s' := fst (exec WithdrawRelayerBalance e Scenario.funded) in
  balanceOfRelayer Scenario.funded Scenario.alice = 5500000000000000 /\
  snd (exec WithdrawRelayerBalance e Scenario.funded) = Succeeded [] /\
  balanceOfRelayer s' Scenario.alice = 0 /\
  totalRelayerBalance s' = 0.
Proof.
  intros e s'.
  pose proof (C4_withdraw e Scenario.funded (1000 * ether) funded_reachable
                eq_refl eq_refl) as (_ & _ & Hok & _).
  assert (Hne : balanceOfRelayer Scenario.funded (msg_sender e) <> 0)
    by (vm_compute; discriminate).
  assert (Hle : balanceOfRelayer Scenario.funded (msg_sender e) <= 1000 * ether)
    by (apply Z.leb_le; reflexivity).
  specialize (Hok Hne Hle). subst s'. rewrite Hok.
  repeat split; reflexivity.
Defined.

(** *** Pausing *)

Lemma setRelayerFeeMultiplier_run m e s :
  exec (SetRelayerFeeMultiplier m) e s =
    if hasRole s DEFAULT_ADMIN_ROLE (msg_sender e) then
      if 100 <=? m then
        if m <=? 150 then (set_relayerFeeMultiplier m s, Succeeded [])
        else (s, Reverted (RevertReason "Multiplier must be <= 150"))
      else (s, Reverted (RevertReason "Multiplier must be >= 100"))
    else (s, Reverted (MissingRole (msg_sender e) DEFAULT_ADMIN_ROLE)).
Proof. tx_run; reflexivity. Qed.

(** C6, as the claim states it: refuted.  The contract is paused and the
    admin sets the fee multiplier to 120; the call is accepted and the
    multiplier changes from 110 to 120. *)
Lemma C6_counterexample :
  let e := Scenario.block Scenario.deployer 3000 (100 * gwei) ReturnsTrue in
  paused Scenario.halted = true /\
  relayerFeeMultiplier Scenario.halted = 110 /\
  snd (exec (SetRelayerFeeMultiplier 120) e Scenario.halted) = Succeeded [] /\
  relayerFeeMultiplier (fst (exec (SetRelayerFeeMultiplier 120) e Scenario.halted)) = 120.
Proof. repeat split; reflexivity. Qed.

(** C6, amended: while paused, [updateGasPrice], [compensateRelayer] and
    [withdrawRelayerBalance] are rejected and change nothing, with the
    paused error for a caller that holds the function's role (the role
    check comes first); [setRelayerFeeMultiplier] is an admin operation
    outside the pause gate; [emergencyWithdraw] is rejected unless the
    contract is paused. *)
Theorem C6_pause_gating :
  (forall e s,
     reachable s -> paused s = true ->
     exec UpdateGasPrice e s =
       (s, Reverted (if hasRole s ORACLE_ROLE (msg_sender e)
                     then RevertReason "Pausable: paused"
                     else MissingRole (msg_sender e) ORACLE_ROLE)) /\
     (forall relayer gasUsed,
        exec (CompensateRelayer relayer gasUsed) e s =
          (s, Reverted (if hasRole s RELAYER_ROLE (msg_sender e)
                        then RevertReason "Pausable: paused"
                        else MissingRole (msg_sender e) RELAYER_ROLE))) /\
     exec WithdrawRelayerBalance e s =
       (s, Reverted (RevertReason "Pausable: paused"))) /\
  (forall token recipient e s,
     paused s = false ->
     exec (EmergencyWithdraw token recipient) e s =
       (s, Reverted (if hasRole s DEFAULT_ADMIN_ROLE (msg_sender e)
                     then RevertReason "Must be paused"
                     else MissingRole (msg_sender e) DEFAULT_ADMIN_ROLE))) /\
  (forall m e s,
     hasRole s DEFAULT_ADMIN_ROLE (msg_sender e) = true -> 100 <= m <= 150 ->
     exec (SetRelayerFeeMultiplier m) e s = (set_relayerFeeMultiplier m s, Succeeded [])).
Proof.
  split; [|split].
  - intros e s Hreach Hpause.
    pose proof (inv_entered s (reachable_inv s Hreach)) as He.
    repeat split; intros; tx_unfold; tx_beta;
      repeat (first [rewrite He | rewrite Hpause | tx_case]; tx_beta);
      reflexivity.
  - intros token recipient e s Hpause.
    tx_unfold; tx_beta.
    repeat (first [rewrite Hpause | tx_case]; tx_beta); reflexivity.
  - intros m e s Hrole [Hlo Hhi]. rewrite setRelayerFeeMultiplier_run, Hrole.
    apply Z.leb_le in Hlo, Hhi. rewrite Hlo, Hhi. reflexivity.
Qed.

Lemma C6_pause_gating_witness :
  let e := Scenario.block Scenario.deployer 3000 (100 * gwei) ReturnsTrue in
  exec UpdateGasPrice e Scenario.halted =
    (Scenario.halted, Reverted (RevertReason "Pausable: paused")) /\
  exec (CompensateRelayer Scenario.alice 50000) e Scenario.halted =
    (Scenario.halted, Reverted (RevertReason "Pausable: paused")) /\
  exec WithdrawRelayerBalance e Scenario.halted =
    (Scenario.halted, Reverted (RevertReason "Pausable: paused")) /\
  exec (EmergencyWithdraw Scenario.token Scenario.deployer) e Scenario.deployed =
    (Scenario.deployed, Reverted (RevertReason "Must be paused")).
Proof.
  intro e.
  destruct C6_pause_gating as (Hgate & Hemergency & _).
  destruct (Hgate e Scenario.halted halted_reachable eq_refl) as (Hu & Hc & Hw).
  split; [exact Hu|]. split; [exact (Hc Scenario.alice 50000)|].
  split; [exact Hw|].
  exact (Hemergency Scenario.token Scenario.deployer e Scenario.deployed eq_refl).
Defined.

(** *** Fee estimation *)

Lemma estimateGasFee_run gasLimit s log :
  estimateGasFee gasLimit (s, log) =
    if gasPrice s * gasLimit <=? MAX_UINT256 then
      if gasPrice s * gasLimit * relayerFeeMultiplier s <=? MAX_UINT256
      then inr (gasPrice s * gasLimit * relayerFeeMultiplier s / 100, (s, log))
      else inl (Panic 17)
    else inl (Panic 17).
Proof. tx_run; reflexivity. Qed.

Lemma withdraw_frame e s :
  gasPrice (fst (exec WithdrawRelayerBalance e s)) = gasPrice s /\
  relayerFeeMultiplier (fst (exec WithdrawRelayerBalance e s)) = relayerFeeMultiplier s.
Proof. tx_run; split; reflexivity. Qed.

Lemma estimate_depends_on_quote gasLimit s1 s2 :
  gasPrice s1 = gasPrice s2 ->
  relayerFeeMultiplier s1 = relayerFeeMultiplier s2 ->
  staticcall (estimateGasFee gasLimit) s1 = staticcall (estimateGasFee gasLimit) s2.
Proof.
  intros Hp Hm. unfold staticcall. rewrite !estimateGasFee_run, Hp, Hm.
  repeat (tx_case; tx_beta); reflexivity.
Qed.

(** C7 (fee estimate).  [estimateGasFee] leaves storage and the event log
    untouched and, when it returns, returns [gasPrice * gasLimit *
    relayerFeeMultiplier / 100]; it does return that value at every
    reachable state whenever the product fits in 256 bits.  Its answer
    depends on the price and the multiplier only, and any run of
    [withdrawRelayerBalance] calls, accepted or not, leaves it the same. *)
Theorem C7_estimate_pure :
  (forall gasLimit s log v m',
     estimateGasFee gasLimit (s, log) = inr (v, m') ->
     m' = (s, log) /\ v = gasPrice s * gasLimit * relayerFeeMultiplier s / 100) /\
  (forall gasLimit s,
     reachable s -> 0 <= gasLimit ->
     gasPrice s * gasLimit * relayerFeeMultiplier s <= MAX_UINT256 ->
     staticcall (estimateGasFee gasLimit) s =
       inr (gasPrice s * gasLimit * relayerFeeMultiplier s / 100)) /\
  (forall gasLimit s1 s2,
     gasPrice s1 = gasPrice s2 ->
     relayerFeeMultiplier s1 = relayerFeeMultiplier s2 ->
     staticcall (estimateGasFee gasLimit) s1 = staticcall (estimateGasFee gasLimit) s2) /\
  (forall gasLimit (es : list Env) s,
     staticcall (estimateGasFee gasLimit)
       (foldl (fun st e => fst (exec WithdrawRelayerBalance e st)) s es) =
     staticcall (estimateGasFee gasLimit) s).
Proof.
  split; [|split; [|split]].
  - intros gasLimit s log v m'. rewrite estimateGasFee_run.
    repeat (tx_case; tx_beta); intros H; simplify_eq. split; reflexivity.
  - intros gasLimit s Hreach Hgas Hfit.
    destruct (reachable_inv s Hreach) as [Hp Hm _ _ _ _].
    assert (Hpart : gasPrice s * gasLimit <= MAX_UINT256)
      by (unfold MIN_GAS_PRICE, gwei in Hp; nia).
    apply Z.leb_le in Hpart, Hfit.
    unfold staticcall. rewrite estimateGasFee_run, Hpart, Hfit. reflexivity.
  - exact estimate_depends_on_quote.
  - intros gasLimit es. induction es as [|e es IH]; intros s; simpl.
    + reflexivity.
    + rewrite IH. apply estimate_depends_on_quote; apply withdraw_frame.
Qed.

Lemma C7_estimate_pure_witness :
  let e := Scenario.block Scenario.alice 3000 (100 * gwei) ReturnsTrue in
  staticcall (estimateGasFee 50000) Scenario.funded = inr 5500000000000000 /\
  staticcall (estimateGasFee 50000)
    (fst (exec WithdrawRelayerBalance e Scenario.funded)) = inr 5500000000000000.
Proof.
  intro e.
  destruct C7_estimate_pure as (_ & Hval & _ & Hframe).
  assert (Hest : staticcall (estimateGasFee 50000) Scenario.funded
                 = inr 5500000000000000).
  { refine (Hval 50000 Scenario.funded funded_reachable _ _).
    - apply Z.leb_le; reflexivity.
    - apply Z.leb_le; reflexivity. }
  split; [exact Hest|].
  rewrite <- Hest. exact (Hframe 50000 [e] Scenario.funded).
Defined.

(** *** The fee multiplier *)

(** C8 (fee multiplier bounds).  Called by an admin,
    [setRelayerFeeMultiplier(m)] is rejected with "Multiplier must be >=
    100" below 100 and with "Multiplier must be <= 150" above 150, storage
    unchanged, and is accepted exactly on [100, 150]; so 99 and 151 are
    rejected and 120 is accepted, after which [estimateGasFee] charges
    120%. *)
Theorem C8_fee_multiplier_bounds :
  forall e s,
    hasRole s DEFAULT_ADMIN_ROLE (msg_sender e) = true ->
    (forall m, m < 100 ->
       exec (SetRelayerFeeMultiplier m) e s =
         (s, Reverted (RevertReason "Multiplier must be >= 100"))) /\
    (forall m, 150 < m ->
       exec (SetRelayerFeeMultiplier m) e s =
         (s, Reverted (RevertReason "Multiplier must be <= 150"))) /\
    (forall m, 100 <= m <= 150 ->
       exec (SetRelayerFeeMultiplier m) e s =
         (set_relayerFeeMultiplier m s, Succeeded [])) /\
    exec (SetRelayerFeeMultiplier 99) e s =
      (s, Reverted (RevertReason "Multiplier must be >= 100")) /\
    exec (SetRelayerFeeMultiplier 151) e s =
      (s, Reverted (RevertReason "Multiplier must be <= 150")) /\
    (let s' := fst (exec (SetRelayerFeeMultiplier 120) e s) in
     snd (exec (SetRelayerFeeMultiplier 120) e s) = Succeeded [] /\
     relayerFeeMultiplier s' = 120 /\
     forall gasLimit,
       0 <= gasLimit -> 0 <= gasPrice s ->
       gasPrice s * gasLimit * 120 <= MAX_UINT256 ->
       staticcall (estimateGasFee gasLimit) s' = inr (gasPrice s * gasLimit * 120 / 100)).
Proof.
  intros e s Hrole.
  assert (Hlow : forall m, m < 100 ->
            exec (SetRelayerFeeMultiplier m) e s =
              (s, Reverted (RevertReason "Multiplier must be >= 100"))).
  { intros m Hm. rewrite setRelayerFeeMultiplier_run, Hrole.
    apply Z.leb_gt in Hm. rewrite Hm. reflexivity. }
  assert (Hhigh : forall m, 150 < m ->
            exec (SetRelayerFeeMultiplier m) e s =
              (s, Reverted (RevertReason "Multiplier must be <= 150"))).
  { intros m Hm. rewrite setRelayerFeeMultiplier_run, Hrole.
    assert (Hlo : (100 <=? m) = true) by (apply Z.leb_le; lia).
    apply Z.leb_gt in Hm. rewrite Hlo, Hm. reflexivity. }
  assert (Hin : forall m, 100 <= m <= 150 ->
            exec (SetRelayerFeeMultiplier m) e s =
              (set_relayerFeeMultiplier m s, Succeeded [])).
  { intros m [Hlo Hhi]. rewrite setRelayerFeeMultiplier_run, Hrole.
    apply Z.leb_le in Hlo, Hhi. rewrite Hlo, Hhi. reflexivity. }
  repeat split; auto.
  - apply Hlow; lia.
  - apply Hhigh; lia.
  - rewrite Hin by lia. reflexivity.
  - rewrite Hin by lia. reflexivity.
  - intros gasLimit Hgas Hprice Hfit. rewrite Hin by lia.
    unfold staticcall. rewrite estimateGasFee_run. tx_beta.
    assert (Hpart : gasPrice s * gasLimit <= MAX_UINT256) by nia.
    apply Z.leb_le in Hpart, Hfit. rewrite Hpart, Hfit. reflexivity.
Qed.

Lemma C8_fee_multiplier_bounds_witness :
  let e := Scenario.block Scenario.deployer 3000 (100 * gwei) ReturnsTrue in
  let s' := fst (exec (SetRelayerFeeMultiplier 120) e Scenario.deployed) in
  exec (SetRelayerFeeMultiplier 99) e Scenario.deployed =
    (Scenario.deployed, Reverted (RevertReason "Multiplier must be >= 100")) /\
  exec (SetRelayerFeeMultiplier 151) e Scenario.deployed =
    (Scenario.deployed, Reverted (RevertReason "Multiplier must be <= 150")) /\
  relayerFeeMultiplier s' = 120 /\
  staticcall (estimateGasFee 50000) s' = inr 6000000000000000.
Proof.
  intros e s'.
  destruct (C8_fee_multiplier_bounds e Scenario.deployed eq_refl)
    as (_ & _ & _ & H99 & H151 & _ & H120 & Hest).
  split; [exact H99|]. split; [exact H151|]. split; [exact H120|].
  refine (Hest 50000 _ _ _); apply Z.leb_le; reflexivity.
Defined.

(** *** The gas-price oracle *)

Lemma deviation_is_floor old new :
  0 < old -> Qfloor (spec_deviation old new) = deviation old new.
Proof.
  intros Hold. unfold spec_deviation, deviation.
  destruct old as [|p|p]; try lia.
  unfold Qdiv, Qinv, Qmult, Qminus, Qplus, Qopp, Qabs, inject_Z, Qfloor. simpl.
  rewrite !Z.mul_1_r, !Pos.mul_1_r.
  replace (new + - Z.pos p) with (new - Z.pos p) by lia.
  reflexivity.
Qed.

Lemma price_gap_fits : MAX_GAS_PRICE * 100 <= MAX_UINT256.
Proof. vm_compute. discriminate. Qed.

(** C2, as the claim states it: refuted.  The price stands at 100 gwei and
    the network reports 150.5 gwei: the deviation is 50.5 > 50, and the
    update is applied (with an alert) where the claim rejects it.  At
    130.5 gwei the deviation is 30.5, in (30, 50], and the update is
    applied without the alert. *)
Lemma C2_counterexample :
  let e1 := Scenario.block Scenario.deployer 5000 150500000000 ReturnsTrue in
  let e2 := Scenario.block Scenario.deployer 5000 130500000000 ReturnsTrue in
  gasPrice Scenario.deployed = 100000000000 /\
  (spec_deviation 100000000000 150500000000 == 101 # 2)%Q /\
  exec UpdateGasPrice e1 Scenario.deployed =
    (set_gasPriceLastUpdated 5000 (set_gasPrice 150500000000 Scenario.deployed),
     Succeeded [PriceDeviationDetected 100000000000 150500000000 50;
                GasPriceUpdated 150500000000 5000]) /\
  (spec_deviation 100000000000 130500000000 == 61 # 2)%Q /\
  exec UpdateGasPrice e2 Scenario.deployed =
    (set_gasPriceLastUpdated 5000 (set_gasPrice 130500000000 Scenario.deployed),
     Succeeded [GasPriceUpdated 130500000000 5000]).
Proof. repeat split; reflexivity. Qed.

(** C2, amended: the deviation compared with the thresholds is the whole
    number [deviation old new] = floor(|new - old| * 100 / old); with it
    the gates are as the claim lists them, for a caller holding
    [ORACLE_ROLE] while the contract is not paused. *)
Theorem C2_update_gas_price :
  forall e s,
    reachable s ->
    hasRole s ORACLE_ROLE (msg_sender e) = true -> paused s = false ->
    gasPriceLastUpdated s + GAS_PRICE_UPDATE_INTERVAL <= MAX_UINT256 ->
    let old := gasPrice s in
    let new := tx_gasprice e in
    let now := block_timestamp e in
    let applied := set_gasPriceLastUpdated now (set_gasPrice new s) in
    deviation old new = Qfloor (spec_deviation old new) /\
    exec UpdateGasPrice e s =
      if now <? gasPriceLastUpdated s + GAS_PRICE_UPDATE_INTERVAL then
        (s, Reverted (RevertReason "Too soon to update"))
      else if (new <? MIN_GAS_PRICE) || (MAX_GAS_PRICE <? new) then
        (s, Reverted (InvalidGasPrice new))
      else if 50 <? deviation old new then
        (s, Reverted (SuspiciousPriceMovement old new))
      else if 30 <? deviation old new then
        (applied, Succeeded [PriceDeviationDetected old new (deviation old new);
                             GasPriceUpdated new now])
      else
        (applied, Succeeded [GasPriceUpdated new now]).
Proof.
  intros e s Hreach Hrole Hpause Hfit old new now applied.
  destruct (reachable_inv s Hreach) as [Hp Hm _ _ _ _].
  assert (Hold : 0 < gasPrice s) by (unfold MIN_GAS_PRICE, gwei in Hp; lia).
  split; [symmetry; apply deviation_is_floor; exact Hold|].
  subst old new now applied. pose proof price_gap_fits as Hgap.
  unfold deviation.
  assert (Habs : Z.abs (tx_gasprice e - gasPrice s) =
                 if gasPrice s <? tx_gasprice e
                 then tx_gasprice e - gasPrice s
                 else gasPrice s - tx_gasprice e)
    by (destruct (Z.ltb_spec (gasPrice s) (tx_gasprice e)); lia).
  rewrite Habs. clear Habs.
  tx_unfold; tx_beta.
  repeat (first [rewrite Hrole | rewrite Hpause | tx_case]; tx_beta).
  all: tests_to_props; unfold MAX_PRICE_DEVIATION, MIN_GAS_PRICE, gwei in *.
  all: try lia; try reflexivity.
Qed.

Lemma C2_update_gas_price_witness :
  let e := Scenario.block Scenario.deployer 5000 (140 * gwei) ReturnsTrue in
  exec UpdateGasPrice e Scenario.deployed =
    (set_gasPriceLastUpdated 5000 (set_gasPrice (140 * gwei) Scenario.deployed),
     Succeeded [PriceDeviationDetected (100 * gwei) (140 * gwei) 40;
                GasPriceUpdated (140 * gwei) 5000]).
Proof.
  intro e.
  refine (proj2 (C2_update_gas_price e Scenario.deployed deployed_reachable _ _ _)).
  - reflexivity.
  - reflexivity.
  - apply Z.leb_le. reflexivity.
Defined.

(** ** Further properties of the contract *)

(** *** Access control *)

(** X1.  A call to [updateGasPrice], [compensateRelayer],
    [setRelayerFeeMultiplier], [pause], [unpause] or [emergencyWithdraw]
    by an account that lacks the role named in the function's [onlyRole]
    modifier reverts with the missing-role error, whatever the arguments
    and the pause state, and leaves storage unchanged. *)
Theorem X1_missing_role_rejected :
  forall c r e s,
    required_role c = Some r ->
    hasRole s r (msg_sender e) = false ->
    exec c e s = (s, Reverted (MissingRole (msg_sender e) r)).
Proof.
  intros c r e s Hreq Hrole.
  destruct c; simpl in Hreq; simplify_eq.
  all: tx_unfold; tx_beta; rewrite Hrole; tx_beta; reflexivity.
Qed.

Lemma X1_missing_role_rejected_witness :
  let e := Scenario.block Scenario.alice 3000 (100 * gwei) ReturnsTrue in
  exec (CompensateRelayer Scenario.alice 50000) e Scenario.deployed =
    (Scenario.deployed, Reverted (MissingRole Scenario.alice RELAYER_ROLE)).
Proof.
  intro e.
  exact (X1_missing_role_rejected (CompensateRelayer Scenario.alice 50000)
           RELAYER_ROLE e Scenario.deployed eq_refl eq_refl).
Defined.

(** *** Emergency withdrawal *)

(** X2.  [emergencyWithdraw] never writes storage, whether it succeeds or
    reverts: the relayer ledger records the same balances and the same
    total after the pool has been withdrawn.  When it succeeds it has
    moved the whole balance: the single event it emits carries the
    contract's entire ether balance (token [address(0)]) or the entire
    token balance reported for the contract. *)
Theorem X2_emergency_withdraw_frame :
  forall token recipient e s,
    fst (exec (EmergencyWithdraw token recipient) e s) = s /\
    forall evs,
      snd (exec (EmergencyWithdraw token recipient) e s) = Succeeded evs ->
      paused s = true /\ recipient <> 0 /\
      hasRole s DEFAULT_ADMIN_ROLE (msg_sender e) = true /\
      exists amount,
        evs = [EmergencyWithdrawal token recipient amount] /\
        (if token =? 0
         then amount = self_balance e /\ send_value e recipient amount = true
         else token_balanceOf e token = Some amount /\
              token_transfer e token recipient amount = ReturnsTrue).
Proof.
  intros token recipient e s. split.
  - tx_run; reflexivity.
  - intros evs. tx_run; intros H; simplify_eq.
    all: cbv iota.
    all: match goal with
         | H : negb (_ =? 0) = true |- _ => apply negb_true_iff, Z.eqb_neq in H
         end.
    all: repeat split; try assumption.
    all: eexists; repeat split; first [reflexivity | assumption].
Qed.

Lemma X2_emergency_withdraw_frame_witness :
  let e := Scenario.block Scenario.deployer 3000 (100 * gwei) ReturnsTrue in
  exec (EmergencyWithdraw Scenario.token Scenario.alice) e Scenario.halted =
    (Scenario.halted,
     Succeeded [EmergencyWithdrawal Scenario.token Scenario.alice (1000 * ether)]) /\
  paused Scenario.halted = true.
Proof.
  intro e.
  assert (Hrun : exec (EmergencyWithdraw Scenario.token Scenario.alice) e Scenario.halted =
    (Scenario.halted,
     Succeeded [EmergencyWithdrawal Scenario.token Scenario.alice (1000 * ether)]))
    by reflexivity.
  split; [exact Hrun|].
  destruct (X2_emergency_withdraw_frame Scenario.token Scenario.alice e Scenario.halted)
    as [_ Hok].
  rewrite Hrun in Hok. exact (proj1 (Hok _ eq_refl)).
Defined.

(** *** The quote *)

(** X3.  At every reachable state the quoted gas price lies in
    [MIN_GAS_PRICE, MAX_GAS_PRICE] (1 to 500 gwei) and the fee multiplier
    in [100, 150]. *)
Theorem X3_quote_in_bounds :
  forall s,
    reachable s ->
    MIN_GAS_PRICE <= gasPrice s <= MAX_GAS_PRICE /\
    100 <= relayerFeeMultiplier s <= 150.
Proof.
  intros s Hreach. destruct (reachable_inv s Hreach) as [Hp Hm _ _ _ _].
  split; assumption.
Qed.

Lemma X3_quote_in_bounds_witness :
  MIN_GAS_PRICE <= gasPrice Scenario.funded <= MAX_GAS_PRICE /\
  100 <= relayerFeeMultiplier Scenario.funded <= 150.
Proof. exact (X3_quote_in_bounds Scenario.funded funded_reachable). Defined.

Lemma quotient_bound a b q : 0 < b -> a / b <= q -> a < (q + 1) * b.
Proof.
  intros Hb Hq. destruct (Z_lt_le_dec a ((q + 1) * b)) as [Hlt|Hge]; [exact Hlt|].
  assert (q + 1 <= a / b) by (apply Z.div_le_lower_bound; lia). lia.
Qed.

(** What an accepted [updateGasPrice] call does. *)
Lemma updateGasPrice_accepted e s s' evs :
  exec UpdateGasPrice e s = (s', Succeeded evs) ->
  s' = set_gasPriceLastUpdated (block_timestamp e) (set_gasPrice (tx_gasprice e) s) /\
  paused s = false /\
  gasPriceLastUpdated s + GAS_PRICE_UPDATE_INTERVAL <= block_timestamp e /\
  MIN_GAS_PRICE <= tx_gasprice e <= MAX_GAS_PRICE /\
  (0 < gasPrice s -> Z.abs (tx_gasprice e - gasPrice s) * 100 / gasPrice s <= 50) /\
  last evs = Some (GasPriceUpdated (tx_gasprice e) (block_timestamp e)).
Proof.
  tx_run; intros H; simplify_eq; tests_to_props.
  all: unfold MAX_PRICE_DEVIATION in *.
  all: repeat split; try reflexivity; try assumption; try lia.
  all: intros Hpos; try lia.
  all: match goal with
       | H : (?d * 100) `div` _ <= 50 |- _ =>
           replace (Z.abs (tx_gasprice e - gasPrice s)) with d by lia; exact H
       end.
Qed.

(** X4.  An accepted [updateGasPrice] from a reachable state installs the
    observed price, which lies within the bounds and differs from the old
    price by less than 51% of it ([100 * |new - old| < 51 * old]); it
    stamps the update time and touches neither the multiplier, the ledger
    nor the daily total. *)
Theorem X4_update_step_bounded :
  forall e s s' evs,
    reachable s ->
    exec UpdateGasPrice e s = (s', Succeeded evs) ->
    gasPrice s' = tx_gasprice e /\
    MIN_GAS_PRICE <= gasPrice s' <= MAX_GAS_PRICE /\
    100 * Z.abs (gasPrice s' - gasPrice s) < 51 * gasPrice s /\
    gasPriceLastUpdated s' = block_timestamp e /\
    relayerFeeMultiplier s' = relayerFeeMultiplier s /\
    relayerBalances s' = relayerBalances s /\
    totalRelayerBalance s' = totalRelayerBalance s /\
    dailyCompensation s' = dailyCompensation s.
Proof.
  intros e s s' evs Hreach Hexec.
  destruct (updateGasPrice_accepted _ _ _ _ Hexec) as (-> & _ & _ & Hnew & Hdev & _).
  destruct (reachable_inv s Hreach) as [Hp _ _ _ _ _].
  assert (Hold : 0 < gasPrice s) by (unfold MIN_GAS_PRICE, gwei in Hp; lia).
  cbn [gasPrice gasPriceLastUpdated relayerFeeMultiplier relayerBalances
       totalRelayerBalance dailyCompensation set_gasPrice set_gasPriceLastUpdated].
  repeat split; try reflexivity; try apply Hnew.
  pose proof (quotient_bound _ _ _ Hold (Hdev Hold)). lia.
Qed.

Lemma X4_update_step_bounded_witness :
  let e := Scenario.block Scenario.deployer 5000 (140 * gwei) ReturnsTrue in
  let s' := fst (exec UpdateGasPrice e Scenario.deployed) in
  gasPrice s' = 140 * gwei /\
  100 * Z.abs (gasPrice s' - gasPrice Scenario.deployed) < 51 * gasPrice Scenario.deployed.
Proof.
  intros e s'.
  assert (Hexec : exec UpdateGasPrice e Scenario.deployed =
                  (s', Succeeded [PriceDeviationDetected (100 * gwei) (140 * gwei) 40;
                                  GasPriceUpdated (140 * gwei) 5000]))
    by reflexivity.
  destruct (X4_update_step_bounded e Scenario.deployed s' _ deployed_reachable Hexec)
    as (Hp & _ & Hd & _).
  split; [exact Hp | exact Hd].
Defined.

(** Within the interval an update is rejected, whoever sends it. *)
Lemma update_too_soon e s :
  block_timestamp e < gasPriceLastUpdated s + GAS_PRICE_UPDATE_INTERVAL ->
  (exists err, exec UpdateGasPrice e s = (s, Reverted err)) /\
  (hasRole s ORACLE_ROLE (msg_sender e) = true -> paused s = false ->
   gasPriceLastUpdated s + GAS_PRICE_UPDATE_INTERVAL <= MAX_UINT256 ->
   exec UpdateGasPrice e s = (s, Reverted (RevertReason "Too soon to update"))).
Proof.
  intros Hsoon.
  split; [|intros Hrole Hpause Hfit; apply Z.leb_le in Hfit].
  all: tx_unfold; tx_beta.
  all: repeat (first [rewrite Hrole | rewrite Hpause | rewrite Hfit | tx_case];
               tx_beta).
  all: tests_to_props; try lia; eauto.
Qed.

(** Within the interval no call moves the price or the time of its last
    update. *)
Lemma price_kept c e s :
  block_timestamp e < gasPriceLastUpdated s + GAS_PRICE_UPDATE_INTERVAL ->
  gasPrice (fst (exec c e s)) = gasPrice s /\
  gasPriceLastUpdated (fst (exec c e s)) = gasPriceLastUpdated s.
Proof.
  intros Hsoon. destruct c.
  1:{ destruct (proj1 (update_too_soon e s Hsoon)) as [err ->].
      split; reflexivity. }
  all: tx_run; split; reflexivity.
Qed.

Lemma run_price_kept trace :
  forall s t,
    Forall (fun ce => block_timestamp (snd ce) < t) trace ->
    t = gasPriceLastUpdated s + GAS_PRICE_UPDATE_INTERVAL ->
    gasPrice (run trace s) = gasPrice s /\
    gasPriceLastUpdated (run trace s) = gasPriceLastUpdated s.
Proof.
  induction trace as [|[c e] trace IH]; intros s t Hall Ht.
  - split; reflexivity.
  - inversion Hall as [|? ? Hhead Htail]; subst. simpl in Hhead.
    destruct (price_kept c e s Hhead) as [Hp Hu].
    unfold run. simpl. fold (run trace (fst (exec c e s))).
    destruct (IH (fst (exec c e s)) _ Htail ltac:(rewrite Hu; reflexivity))
      as [Hp2 Hu2].
    rewrite Hp2, Hu2, Hp, Hu. split; reflexivity.
Qed.

(** X5.  After an accepted [updateGasPrice] in a block stamped [t],
    whatever transactions follow in blocks stamped before [t + 1 hours]
    (calls of any function by any sender, accepted or not), the price and
    the time of its last update stay as that update left them, and every
    [updateGasPrice] in such a block reverts and changes nothing; for a
    caller holding [ORACLE_ROLE] on a contract that is not paused the
    reason is "Too soon to update". *)
Theorem X5_update_throttled :
  forall e1 s s1 evs trace e2,
    exec UpdateGasPrice e1 s = (s1, Succeeded evs) ->
    Forall (fun ce => block_timestamp (snd ce) <
                      block_timestamp e1 + GAS_PRICE_UPDATE_INTERVAL) trace ->
    block_timestamp e2 < block_timestamp e1 + GAS_PRICE_UPDATE_INTERVAL ->
    let s2 := run trace s1 in
    gasPrice s2 = tx_gasprice e1 /\
    gasPriceLastUpdated s2 = block_timestamp e1 /\
    (exists err, exec UpdateGasPrice e2 s2 = (s2, Reverted err)) /\
    (hasRole s2 ORACLE_ROLE (msg_sender e2) = true -> paused s2 = false ->
     block_timestamp e1 + GAS_PRICE_UPDATE_INTERVAL <= MAX_UINT256 ->
     exec UpdateGasPrice e2 s2 = (s2, Reverted (RevertReason "Too soon to update"))).
Proof.
  intros e1 s s1 evs trace e2 Hexec Htrace Hsoon s2. subst s2.
  destruct (updateGasPrice_accepted _ _ _ _ Hexec) as (Hs1 & _).
  assert (Hp1 : gasPrice s1 = tx_gasprice e1) by (subst s1; reflexivity).
  assert (Hu1 : gasPriceLastUpdated s1 = block_timestamp e1) by (subst s1; reflexivity).
  destruct (run_price_kept trace s1 _ Htrace ltac:(rewrite Hu1; reflexivity))
    as [Hp2 Hu2].
  rewrite Hp1 in Hp2. rewrite Hu1 in Hu2.
  split; [exact Hp2|]. split; [exact Hu2|].
  assert (Hsoon2 : block_timestamp e2 <
                   gasPriceLastUpdated (run trace s1) + GAS_PRICE_UPDATE_INTERVAL)
    by (rewrite Hu2; exact Hsoon).
  destruct (update_too_soon e2 (run trace s1) Hsoon2) as [Hrev Hwhy].
  split; [exact Hrev|].
  intros Hrole Hpause Hfit. apply Hwhy; [exact Hrole | exact Hpause |].
  rewrite Hu2. exact Hfit.
Qed.

Lemma X5_update_throttled_witness :
  let e1 := Scenario.block Scenario.deployer 5000 (140 * gwei) ReturnsTrue in
  let pausing := Scenario.block Scenario.deployer 5001 (100 * gwei) ReturnsTrue in
  let e2 := Scenario.block Scenario.deployer 5002 (120 * gwei) ReturnsTrue in
  let s1 := fst (exec UpdateGasPrice e1 Scenario.deployed) in
  let s2 := run [(Pause, pausing)] s1 in
  gasPrice s2 = 140 * gwei /\
  exec UpdateGasPrice e2 s2 = (s2, Reverted (RevertReason "Pausable: paused")).
Proof.
  intros e1 pausing e2 s1 s2.
  assert (Hexec : exec UpdateGasPrice e1 Scenario.deployed =
                  (s1, Succeeded [PriceDeviationDetected (100 * gwei) (140 * gwei) 40;
                                  GasPriceUpdated (140 * gwei) 5000]))
    by reflexivity.
  assert (Htrace : Forall (fun ce => block_timestamp (snd ce) <
                                     block_timestamp e1 + GAS_PRICE_UPDATE_INTERVAL)
                     [(Pause, pausing)])
    by (constructor; [reflexivity | constructor]).
  assert (Hsoon : block_timestamp e2 < block_timestamp e1 + GAS_PRICE_UPDATE_INTERVAL)
    by reflexivity.
  destruct (X5_update_throttled e1 _ s1 _ [(Pause, pausing)] e2 Hexec Htrace Hsoon)
    as (Hp & _ & [err Hrev] & _).
  split; [exact Hp|].
  fold s2 in Hrev. rewrite Hrev. f_equal. f_equal.
  assert (Hrun : snd (exec UpdateGasPrice e2 s2) = Reverted (RevertReason "Pausable: paused"))
    by (vm_compute; reflexivity).
  rewrite Hrev in Hrun. simpl in Hrun. congruence.
Defined.

(** *** The ledger *)

(** What an accepted [withdrawRelayerBalance] call does. *)
Lemma withdraw_accepted e s s' evs :
  exec WithdrawRelayerBalance e s = (s', Succeeded evs) ->
  balanceOfRelayer s' (msg_sender e) = 0 /\
  balanceOfRelayer s (msg_sender e) <> 0 /\
  paused s' = false /\ entered s' = false /\ evs = [] /\
  token_transfer e (wdoge s) (msg_sender e) (balanceOfRelayer s (msg_sender e))
    = ReturnsTrue.
Proof.
  tx_run; intros H; simplify_eq; tests_to_props.
  unfold balanceOfRelayer; tx_beta. rewrite lookup_insert_eq.
  repeat split; try reflexivity; assumption.
Qed.

(** X6.  A balance is paid out once: after an accepted
    [withdrawRelayerBalance], the caller's recorded balance is zero, the
    token was asked to transfer exactly the prior balance, and the same
    caller's next withdrawal is rejected with [InsufficientBalance(0, 0)]
    whatever the token then answers. *)
Theorem X6_no_double_withdrawal :
  forall e e2 s s1 evs,
    exec WithdrawRelayerBalance e s = (s1, Succeeded evs) ->
    msg_sender e2 = msg_sender e ->
    balanceOfRelayer s1 (msg_sender e) = 0 /\
    token_transfer e (wdoge s) (msg_sender e) (balanceOfRelayer s (msg_sender e))
      = ReturnsTrue /\
    exec WithdrawRelayerBalance e2 s1 = (s1, Reverted (InsufficientBalance 0 0)).
Proof.
  intros e e2 s s1 evs Hexec Hsame.
  destruct (withdraw_accepted _ _ _ _ Hexec) as (Hzero & _ & Hpause & He & _ & Htr).
  split; [exact Hzero|]. split; [exact Htr|].
  unfold balanceOfRelayer in Hzero. rewrite <- Hsame in Hzero.
  tx_unfold; tx_beta.
  rewrite He; tx_beta. rewrite Hpause; tx_beta. rewrite Hzero.
  reflexivity.
Qed.

Lemma X6_no_double_withdrawal_witness :
  let e := Scenario.block Scenario.alice 3000 (100 * gwei) ReturnsTrue in
  let e2 := Scenario.block Scenario.alice 3001 (100 * gwei) ReturnsTrue in
  let s1 := fst (exec WithdrawRelayerBalance e Scenario.funded) in
  exec WithdrawRelayerBalance e2 s1 = (s1, Reverted (InsufficientBalance 0 0)).
Proof.
  intros e e2 s1.
  assert (Hexec : exec WithdrawRelayerBalance e Scenario.funded = (s1, Succeeded []))
    by (vm_compute; reflexivity).
  pose proof (X6_no_double_withdrawal e e2 Scenario.funded s1 [] Hexec eq_refl)
    as (_ & _ & Hagain).
  exact Hagain.
Defined.

(** X7.  The relayer ledger is written by [compensateRelayer] and
    [withdrawRelayerBalance] only: every other call leaves every balance
    and the total as they were.  At a reachable state a balance grows only
    through a [compensateRelayer] naming that relayer, and shrinks only
    through that relayer's own [withdrawRelayerBalance]. *)
Theorem X7_ledger_writers :
  (forall c e s,
     touches_ledger c = false ->
     relayerBalances (fst (exec c e s)) = relayerBalances s /\
     totalRelayerBalance (fst (exec c e s)) = totalRelayerBalance s) /\
  (forall c e s a,
     reachable s -> wf_call c ->
     (balanceOfRelayer s a < balanceOfRelayer (fst (exec c e s)) a ->
      exists gasUsed, c = CompensateRelayer a gasUsed) /\
     (balanceOfRelayer (fst (exec c e s)) a < balanceOfRelayer s a ->
      c = WithdrawRelayerBalance /\ msg_sender e = a)).
Proof.
  split.
  - intros c e s Hc. destruct c; simpl in Hc; try discriminate.
    all: tx_run; split; reflexivity.
  - intros c e s a Hreach Hwf.
    destruct (reachable_inv s Hreach) as [Hp Hm _ Hb _ _].
    assert (Hother : touches_ledger c = false ->
              balanceOfRelayer (fst (exec c e s)) a = balanceOfRelayer s a).
    { intros Hc. unfold balanceOfRelayer.
      destruct c; simpl in Hc; try discriminate.
      all: tx_run; reflexivity. }
    destruct c; simpl in Hwf;
      try (rewrite Hother by reflexivity; split; intros; lia).
    + (* compensateRelayer *)
      destruct (exec (CompensateRelayer relayer gasUsed) e s) as [s' [evs|err]] eqn:Hexec.
      * destruct (compensateRelayer_accepted _ _ _ _ _ _ Hexec)
          as (Hbal & _ & Hoth & _).
        simpl. destruct (decide (a = relayer)) as [->|Hne].
        -- split; [eauto|]. intros Hlt. rewrite Hbal in Hlt.
           assert (0 <= gasPrice s * gasUsed * relayerFeeMultiplier s / 100)
             by (apply div100_nonneg; unfold uint256, MIN_GAS_PRICE, gwei in *; nia).
           lia.
        -- rewrite (Hoth a Hne). split; intros; lia.
      * pose proof (revert_rolls_back (CompensateRelayer relayer gasUsed) e s err) as Hsame.
        rewrite Hexec in Hsame. simpl in *. rewrite (Hsame eq_refl).
        split; intros; lia.
    + (* withdrawRelayerBalance *)
      pose proof (Hb a) as Ha. revert Ha. unfold balanceOfRelayer.
      tx_run; intros Ha; try (split; intros; lia).
      destruct (decide (msg_sender e = a)) as [Heq|Hne].
      * rewrite Heq, lookup_insert_eq. simpl. split; [intros; lia | auto].
      * rewrite lookup_insert_ne by exact Hne. split; intros; lia.
Qed.

Lemma X7_ledger_writers_witness :
  let e := Scenario.block Scenario.deployer 2000 (100 * gwei) ReturnsTrue in
  exists gasUsed, CompensateRelayer Scenario.alice 50000
                  = CompensateRelayer Scenario.alice gasUsed.
Proof.
  intro e.
  refine (proj1 (proj2 X7_ledger_writers (CompensateRelayer Scenario.alice 50000) e
                   Scenario.deployed Scenario.alice deployed_reachable _) _).
  - unfold wf_call, uint256. split; apply Z.leb_le; reflexivity.
  - apply Z.ltb_lt. reflexivity.
Defined.

(** *** Fees *)

(** X8.  At a reachable state a fee estimate that is returned is never
    below the gas cost [gasPrice * gasLimit] and never above one and a half
    times that cost, and a larger gas limit never gets a smaller
    estimate. *)
Theorem X8_fee_between_cost_and_150_percent :
  forall s,
    reachable s ->
    (forall gasLimit fee,
       0 <= gasLimit ->
       staticcall (estimateGasFee gasLimit) s = inr fee ->
       gasPrice s * gasLimit <= fee /\ 2 * fee <= 3 * (gasPrice s * gasLimit)) /\
    (forall g1 g2 fee1 fee2,
       0 <= g1 <= g2 ->
       staticcall (estimateGasFee g1) s = inr fee1 ->
       staticcall (estimateGasFee g2) s = inr fee2 ->
       fee1 <= fee2).
Proof.
  intros s Hreach. destruct (reachable_inv s Hreach) as [Hp Hm _ _ _ _].
  unfold MIN_GAS_PRICE, gwei in Hp.
  unfold staticcall. split.
  - intros gasLimit fee Hg. rewrite estimateGasFee_run.
    repeat (tx_case; tx_beta); intros H; simplify_eq.
    set (cost := gasPrice s * gasLimit).
    assert (0 <= cost) by (subst cost; nia).
    split.
    + apply Z.div_le_lower_bound; nia.
    + assert (cost * relayerFeeMultiplier s / 100 <= cost * 150 / 100)
        by (apply Z.div_le_mono; nia).
      assert (2 * (cost * 150 / 100) <= 3 * cost).
      { pose proof (div100_mul_le (cost * 150)). lia. }
      lia.
  - intros g1 g2 fee1 fee2 Hg. rewrite !estimateGasFee_run.
    repeat (tx_case; tx_beta); intros H1 H2; simplify_eq.
    apply Z.div_le_mono; [lia|].
    apply Z.mul_le_mono_nonneg_r; [lia|].
    apply Z.mul_le_mono_nonneg_l; lia.
Qed.

Lemma X8_fee_between_cost_and_150_percent_witness :
  gasPrice Scenario.funded * 50000 <= 5500000000000000 /\
  2 * 5500000000000000 <= 3 * (gasPrice Scenario.funded * 50000).
Proof.
  refine (proj1 (X8_fee_between_cost_and_150_percent Scenario.funded funded_reachable)
            50000 5500000000000000 _ _).
  - apply Z.leb_le. reflexivity.
  - reflexivity.
Defined.

(** X9.  The quote is honoured: what an accepted [compensateRelayer(relayer,
    gasUsed)] adds to the relayer's balance is exactly what
    [estimateGasFee(gasUsed)] returned just before the call. *)
Theorem X9_credit_equals_estimate :
  forall relayer gasUsed e s s' evs,
    exec (CompensateRelayer relayer gasUsed) e s = (s', Succeeded evs) ->
    staticcall (estimateGasFee gasUsed) s =
      inr (balanceOfRelayer s' relayer - balanceOfRelayer s relayer).
Proof.
  intros relayer gasUsed e s s' evs Hexec.
  destruct (compensateRelayer_accepted _ _ _ _ _ _ Hexec) as (Hbal & _).
  rewrite Hbal. unfold staticcall. rewrite estimateGasFee_run.
  revert Hexec. clear Hbal. tx_run; intros H; simplify_eq.
  all: f_equal; lia.
Qed.

Lemma X9_credit_equals_estimate_witness :
  staticcall (estimateGasFee 50000) Scenario.deployed =
    inr (balanceOfRelayer Scenario.funded Scenario.alice
         - balanceOfRelayer Scenario.deployed Scenario.alice).
Proof.
  exact (X9_credit_equals_estimate Scenario.alice 50000
           (Scenario.block Scenario.deployer 2000 (100 * gwei) ReturnsTrue)
           Scenario.deployed Scenario.funded
           [RelayerCompensated Scenario.alice 5500000000000000] eq_refl).
Defined.

(** X10.  A compensation within the remaining daily allowance is accepted.
    For a caller holding [RELAYER_ROLE] on a reachable, unpaused contract,
    with [s1] the storage after the reset step: if the compensation added
    to [dailyCompensation s1] does not exceed the cap (and the total fits
    in 256 bits), the call succeeds, credits the relayer and emits the
    reset event, if the window was restarted, followed by
    [RelayerCompensated]. *)
Theorem X10_within_allowance_accepted :
  forall relayer gasUsed e s s1 log,
    reachable s -> uint256 gasUsed ->
    hasRole s RELAYER_ROLE (msg_sender e) = true -> paused s = false ->
    resetDailyLimit e (s, []) = inr (tt, (s1, log)) ->
    gasPrice s * gasUsed * relayerFeeMultiplier s <= MAX_UINT256 ->
    let compensation := gasPrice s * gasUsed * relayerFeeMultiplier s / 100 in
    dailyCompensation s1 + compensation <= MAX_DAILY_COMPENSATION ->
    totalRelayerBalance s + compensation <= MAX_UINT256 ->
    exists s',
      exec (CompensateRelayer relayer gasUsed) e s =
        (s', Succeeded (log ++ [RelayerCompensated relayer compensation])) /\
      balanceOfRelayer s' relayer = balanceOfRelayer s relayer + compensation /\
      dailyCompensation s' = dailyCompensation s1 + compensation.
Proof.
  intros relayer gasUsed e s s1 log Hreach Hgas Hrole Hpause Hreset Hfit
    compensation Hallow Htotal.
  destruct (reachable_inv s Hreach) as [Hp Hm Hd Hb Ht He].
  pose proof (sum_balances_bound (relayerBalances s) relayer Hb) as Hle.
  rewrite <- Ht in Hle.
  subst compensation. revert Hreset Hallow Htotal. unfold uint256 in Hgas.
  assert (Hpart : gasPrice s * gasUsed <= MAX_UINT256)
    by (unfold MIN_GAS_PRICE, gwei in Hp; nia).
  assert (Hc : 0 <= gasPrice s * gasUsed * relayerFeeMultiplier s / 100)
    by (apply div100_nonneg; unfold MIN_GAS_PRICE, gwei in Hp; nia).
  pose proof (div100_mul_le (gasPrice s * gasUsed * relayerFeeMultiplier s)) as Hc100.
  pose proof cap_far_below_uint256 as Hcap.
  tx_run.
  all: tests_to_props; try congruence; try lia.
  all: intros Hreset Hallow Htotal; simplify_eq; tx_beta; try lia.
  all: eexists; split; [reflexivity|].
  all: unfold balanceOfRelayer; tx_beta; rewrite lookup_insert_eq; simpl.
  all: split; reflexivity.
Qed.

Lemma X10_within_allowance_accepted_witness :
  let e := Scenario.block Scenario.deployer 2000 (100 * gwei) ReturnsTrue in
  exists s',
    exec (CompensateRelayer Scenario.alice 50000) e Scenario.deployed =
      (s', Succeeded [RelayerCompensated Scenario.alice 5500000000000000]) /\
    balanceOfRelayer s' Scenario.alice = 5500000000000000 /\
    dailyCompensation s' = 5500000000000000.
Proof.
  intro e.
  refine (X10_within_allowance_accepted Scenario.alice 50000 e Scenario.deployed
            Scenario.deployed [] deployed_reachable _ _ _ _ _ _ _).
  - unfold uint256. split; apply Z.leb_le; reflexivity.
  - reflexivity.
  - reflexivity.
  - reflexivity.
  - apply Z.leb_le. reflexivity.
  - apply Z.leb_le. reflexivity.
  - apply Z.leb_le. reflexivity.
Defined.

(** *** Pausing and resuming *)

(** X11.  [pause] and [unpause] write the pause flag and nothing else, and
    [unpause] undoes [pause]: on a contract that is not paused, an admin's
    [pause] followed by an admin's [unpause] gives back the storage it
    started from.  Pausing a paused contract and resuming a running one
    are rejected. *)
Theorem X11_pause_unpause_round_trip :
  forall e1 e2 s,
    hasRole s DEFAULT_ADMIN_ROLE (msg_sender e1) = true ->
    hasRole s DEFAULT_ADMIN_ROLE (msg_sender e2) = true ->
    paused s = false ->
    exec Pause e1 s = (set_paused true s, Succeeded [Paused (msg_sender e1)]) /\
    exec Unpause e2 (set_paused true s) = (s, Succeeded [Unpaused (msg_sender e2)]) /\
    exec Pause e2 (set_paused true s) =
      (set_paused true s, Reverted (RevertReason "Pausable: paused")) /\
    exec Unpause e1 s = (s, Reverted (RevertReason "Pausable: not paused")).
Proof.
  intros e1 e2 s H1 H2 Hpause.
  repeat split; tx_unfold; tx_beta.
  all: unfold hasRole in *; tx_beta.
  all: rewrite ?H1, ?H2; tx_beta; rewrite ?Hpause; tx_beta; try reflexivity.
  destruct s; simpl in *; subst. reflexivity.
Qed.

Lemma X11_pause_unpause_round_trip_witness :
  let e := Scenario.block Scenario.deployer 2000 (100 * gwei) ReturnsTrue in
  exec Unpause e Scenario.halted = (Scenario.deployed, Succeeded [Unpaused Scenario.deployer]).
Proof.
  intro e.
  exact (proj1 (proj2 (X11_pause_unpause_round_trip e e Scenario.deployed
                         eq_refl eq_refl eq_refl))).
Defined.

(** ** Properties of the services *)

Import Js.

Ltac js_unfold :=
  unfold GasRelayerService.compensateRelayer,
    GasRelayerService.withdrawRelayerBalance,
    GasRelayerService.retryWithBackoff, GasRelayerService.calls_made,
    AlertManager.sendAlert, get_message, contract_send, tx_wait, sleep,
    console_error, fetch, date_now_iso in *.

Ltac js_beta :=
  cbv beta iota zeta delta [Js.bind Js.ret Js.throw Js.try_catch fst snd] in *;
  cbn [clock network latency chain_send chain_wait requests console calls timers
       elapsed ok statusText GasRelayerService.maxAttempts
       GasRelayerService.initialDelay GasRelayerService.maxDelay
       GasRelayerService.alertManager GasRelayerService.defaultRetryOptions
       GasRelayerService.new_GasRelayerService
       AlertManager.webhookUrl AlertManager.environment negb] in *.

Ltac js_case :=
  match goal with
  | |- context [match chain_send ?w ?l with _ => _ end] =>
      destruct (chain_send w l) eqn:?
  | |- context [match chain_wait ?w ?l with _ => _ end] =>
      destruct (chain_wait w l) eqn:?
  | |- context [match network ?w ?l with _ => _ end] =>
      destruct (network w l) as [[[] ?]|[]] eqn:?
  end.

(** *** Alerts *)

Lemma sendAlert_resolves this title message severity w :
  fst (AlertManager.sendAlert this title message severity w) = Resolved tt.
Proof. js_unfold; js_beta. js_case; js_beta; reflexivity. Qed.

Lemma sendAlert_frame this title message severity w :
  let w' := snd (AlertManager.sendAlert this title message severity w) in
  calls w' = calls w /\ timers w' = timers w.
Proof. js_unfold; js_beta. js_case; js_beta; split; reflexivity. Qed.

Lemma sendAlert_posts this title message severity w :
  requests (snd (AlertManager.sendAlert this title message severity w)) =
  requests w ++
    [(AlertManager.webhookUrl this,
      [("title", title); ("message", message);
       ("severity", AlertManager.Severity_to_string severity);
       ("environment", AlertManager.environment this);
       ("timestamp", clock w)])].
Proof. js_unfold; js_beta. js_case; js_beta; reflexivity. Qed.

(** [sendAlert] hands control back when the webhook has answered. *)
Lemma sendAlert_awaits this title message severity w :
  let w' := snd (AlertManager.sendAlert this title message severity w) in
  GasRelayerService.waited w w' = latency w (requests w') /\
  latency w' = latency w.
Proof.
  unfold GasRelayerService.waited. js_unfold; js_beta.
  js_case; js_beta; split; try reflexivity; lia.
Qed.

(** The retry loop leaves the webhook and the clock alone. *)
Lemma retry_loop_webhook {T} (operation : IO T) options :
  (forall w, let w' := snd (operation w) in
             requests w' = requests w /\ latency w' = latency w /\ clock w' = clock w) ->
  forall (remaining : nat) attempt lastError w,
    let w' := snd (GasRelayerService.retry_loop operation options remaining
                     attempt lastError w) in
    requests w' = requests w /\ latency w' = latency w /\ clock w' = clock w.
Proof.
  intros Hop. induction remaining as [|n IH]; intros attempt lastError w.
  - repeat split; reflexivity.
  - cbn [GasRelayerService.retry_loop]. unfold try_catch.
    destruct (Hop w) as (Hq & Hl & Hc). destruct (operation w) as [[a|err] w1].
    + repeat split; assumption.
    + simpl in Hq, Hl, Hc.
      destruct (attempt =? GasRelayerService.maxAttempts options).
      * unfold Js.bind, Js.throw, get_message, Js.ret.
        destruct err; simpl; repeat split; assumption.
      * unfold Js.bind. cbn [sleep].
        match goal with
        | |- context [GasRelayerService.retry_loop _ _ _ ?a ?e ?w2] =>
            destruct (IH a e w2) as (Hq2 & Hl2 & Hc2)
        end.
        simpl in Hq2, Hl2, Hc2 |- *. rewrite Hq2, Hl2, Hc2. repeat split; assumption.
Qed.

Lemma transaction_webhook c w :
  let w' := snd (transaction c w) in
  requests w' = requests w /\ latency w' = latency w /\ clock w' = clock w.
Proof.
  unfold transaction; js_unfold; js_beta.
  repeat (js_case; js_beta); repeat split; reflexivity.
Qed.

(** A service method around its retried call: the alert is sent, and
    awaited, before the error is passed on. *)
Lemma service_alert_awaited c am title (describe : string -> string) options w :
  let retried := GasRelayerService.retryWithBackoff (transaction c) options w in
  let r := try_catch
             (GasRelayerService.retryWithBackoff (transaction c) options)
             (fun err =>
                Js.bind (get_message err) (fun m =>
                Js.bind (AlertManager.sendAlert am title (describe m) AlertManager.info)
                  (fun _ => Js.throw err))) w in
  fst r = GasRelayerService.surfaced (fst retried) /\
  (fst retried = Resolved tt -> snd r = snd retried) /\
  (forall m, fst retried = Rejected (ErrorObject m) ->
     requests (snd r) = requests w ++
       [(AlertManager.webhookUrl am,
         [("title", title); ("message", describe m); ("severity", "info");
          ("environment", AlertManager.environment am); ("timestamp", clock w)])] /\
     GasRelayerService.waited (snd retried) (snd r) = latency w (requests (snd r))).
Proof.
  intros retried r. subst retried r.
  pose proof (retry_loop_webhook (transaction c) options (transaction_webhook c)
                (Z.to_nat (GasRelayerService.maxAttempts options)) 1 Undefined w)
    as (Hq & Hl & Hc).
  fold (GasRelayerService.retryWithBackoff (transaction c) options w) in Hq, Hl, Hc.
  unfold try_catch, get_message.
  destruct (GasRelayerService.retryWithBackoff (transaction c) options w)
    as [[[]|[m|]] w1]; simpl in Hq, Hl, Hc |- *.
  - split; [reflexivity|]. split; [reflexivity | discriminate].
  - unfold Js.bind, Js.ret, Js.throw.
    pose proof (sendAlert_resolves am title (describe m) AlertManager.info w1) as Hs.
    pose proof (sendAlert_posts am title (describe m) AlertManager.info w1) as Hp.
    pose proof (sendAlert_awaits am title (describe m) AlertManager.info w1) as [Hw _].
    destruct (AlertManager.sendAlert am title (describe m) AlertManager.info w1)
      as [x w2].
    simpl in Hs, Hp, Hw. subst x. simpl.
    split; [reflexivity|]. split; [discriminate|].
    intros m' Hm. injection Hm as <-.
    rewrite Hw, Hp, Hq, Hl, Hc. split; reflexivity.
  - unfold Js.bind, Js.throw. simpl.
    split; [reflexivity|]. split; [discriminate | discriminate].
Qed.

(** C9 (alert delivery), amended.  Whatever the webhook call settles to
    (an OK response, a non-OK response, a rejection), [sendAlert]
    resolves: it posts one request, passes one failure to [console.error]
    exactly when delivery failed, and submits no contract call; what a
    caller of [compensateRelayer] or [withdrawRelayerBalance] gets back is
    decided by the retried contract call alone.  The alert is awaited,
    though: [sendAlert] returns only when the webhook has answered, a
    service method whose retries have failed passes the error on only
    after that, and the rate-limit handler replies only after that. *)
Theorem C9_alert_contained_but_awaited :
  (forall this title message severity w,
     fst (AlertManager.sendAlert this title message severity w) = Resolved tt /\
     (let w' := snd (AlertManager.sendAlert this title message severity w) in
      exists body,
        requests w' = requests w ++ [(AlertManager.webhookUrl this, body)] /\
        console w' = console w ++
          match network w (requests w') with
          | Resolved r =>
              if ok r then []
              else [("Failed to send alert: " +:+ statusText r, None)]
          | Rejected t => [("Error sending alert:", Some t)]
          end /\
        calls w' = calls w /\ timers w' = timers w /\
        GasRelayerService.waited w w' = latency w (requests w'))) /\
  (forall svc relayer gasUsed w,
     let retried := GasRelayerService.retryWithBackoff
                      (transaction (CompensateRelayerCall relayer gasUsed))
                      (GasRelayerService.defaultRetryOptions svc) w in
     let r := GasRelayerService.compensateRelayer svc relayer gasUsed w in
     fst r = GasRelayerService.surfaced (fst retried) /\
     (fst retried = Resolved tt -> snd r = snd retried) /\
     (forall m, fst retried = Rejected (ErrorObject m) ->
        exists alert,
          requests (snd r) = requests w ++ [alert] /\
          GasRelayerService.waited (snd retried) (snd r) = latency w (requests (snd r)))) /\
  (forall svc relayer signer w,
     let retried := GasRelayerService.retryWithBackoff
                      (transaction (WithdrawRelayerBalanceCall signer))
                      (GasRelayerService.defaultRetryOptions svc) w in
     let r := GasRelayerService.withdrawRelayerBalance svc relayer signer w in
     fst r = GasRelayerService.surfaced (fst retried) /\
     (fst retried = Resolved tt -> snd r = snd retried) /\
     (forall m, fst retried = Rejected (ErrorObject m) ->
        exists alert,
          requests (snd r) = requests w ++ [alert] /\
          GasRelayerService.waited (snd retried) (snd r) = latency w (requests (snd r)))) /\
  (forall am req now now' st w,
     let r := RateLimit.handler am req now now' st w in
     exists alert,
       requests (snd r) = requests w ++ [alert] /\
       GasRelayerService.waited w (snd r) = latency w (requests (snd r))).
Proof.
  split; [|split; [|split]].
  - intros this title message severity w.
    split; [apply sendAlert_resolves|].
    js_unfold; js_beta.
    exists [("title", title); ("message", message);
            ("severity", AlertManager.Severity_to_string severity);
            ("environment", AlertManager.environment this);
            ("timestamp", clock w)].
    unfold GasRelayerService.waited.
    js_case; js_beta;
      match goal with H : network _ _ = _ |- _ => rewrite ?H end;
      js_beta; rewrite ?app_nil_r; repeat split; try reflexivity; lia.
  - intros svc relayer gasUsed w retried r. subst retried r.
    destruct (service_alert_awaited (CompensateRelayerCall relayer gasUsed)
                (GasRelayerService.alertManager svc) "Relayer Compensation Failed"
                (fun m => "Failed to compensate relayer " +:+ relayer +:+ ": " +:+ m)
                (GasRelayerService.defaultRetryOptions svc) w)
      as (Hres & Hok & Hfail).
    split; [exact Hres|]. split; [exact Hok|].
    intros m Hm. destruct (Hfail m Hm) as [Hq Hw]. eexists. split; [exact Hq | exact Hw].
  - intros svc relayer signer w retried r. subst retried r.
    destruct (service_alert_awaited (WithdrawRelayerBalanceCall signer)
                (GasRelayerService.alertManager svc) "Withdrawal Failed"
                (fun m => "Failed to withdraw relayer balance for " +:+ relayer +:+ ": " +:+ m)
                (GasRelayerService.defaultRetryOptions svc) w)
      as (Hres & Hok & Hfail).
    split; [exact Hres|]. split; [exact Hok|].
    intros m Hm. destruct (Hfail m Hm) as [Hq Hw]. eexists. split; [exact Hq | exact Hw].
  - intros am req now now' st w r. subst r. unfold RateLimit.handler.
    cbv zeta. unfold Js.bind, Js.ret.
    destruct (RateLimit.trackViolation _ now _) as [n tracked]. cbv beta.
    match goal with
    | |- context [AlertManager.sendAlert ?a ?t ?m ?sv w] =>
        pose proof (sendAlert_resolves a t m sv w) as Hs;
        pose proof (sendAlert_posts a t m sv w) as Hp;
        pose proof (sendAlert_awaits a t m sv w) as [Hw _];
        destruct (AlertManager.sendAlert a t m sv w) as [x w1]
    end.
    simpl in Hs, Hp, Hw. subst x. simpl.
    eexists. split; [exact Hp | exact Hw].
Qed.

(** C9, as the claim states it: refuted.  The chain rejects a
    compensation and the webhook takes ten minutes to answer: the three
    attempts and their two pauses are over after 3 seconds, and the
    caller has its error 600 seconds later, when the alert has been
    delivered. *)
Lemma C9_counterexample :
  let c := CompensateRelayerCall "0xA11CE" 50000 in
  let retried := GasRelayerService.retryWithBackoff (transaction c)
                   (GasRelayerService.mkRetryOptions 3 1000 10000)
                   Scenario.slow_webhook in
  let r := GasRelayerService.compensateRelayer Scenario.service "0xA11CE" 50000
             Scenario.slow_webhook in
  fst retried = Rejected (ErrorObject "Failed after 3 attempts. Last error: execution reverted") /\
  GasRelayerService.waited Scenario.slow_webhook (snd retried) = 3000 /\
  fst r = fst retried /\
  GasRelayerService.waited Scenario.slow_webhook (snd r) = 603000.
Proof. vm_compute. repeat split; reflexivity. Qed.

(** *** Retries *)

(** C5, as the claim states it: refuted.  The chain rejects the
    compensation: the service submits it three times, sleeping 1 s and 2 s
    in between, before the failure reaches the caller.  The chain takes a
    withdrawal and the wait for its receipt fails: the withdrawal is
    submitted three times. *)
Lemma C5_counterexample :
  let c := CompensateRelayerCall "0xA11CE" 50000 in
  let r := GasRelayerService.compensateRelayer Scenario.service "0xA11CE" 50000
             Scenario.rejecting in
  let d := WithdrawRelayerBalanceCall "0xA11CE" in
  let q := GasRelayerService.withdrawRelayerBalance Scenario.service "0xA11CE" "0xA11CE"
             Scenario.stalling in
  calls (snd r) = [c; c; c] /\ timers (snd r) = [1000; 2000] /\
  fst r = Rejected (ErrorObject "Failed after 3 attempts. Last error: execution reverted") /\
  calls (snd q) = [d; d; d] /\ timers (snd q) = [1000; 2000] /\
  fst q = Rejected (ErrorObject "Failed after 3 attempts. Last error: timeout").
Proof. vm_compute. repeat split; reflexivity. Qed.

Lemma transaction_spec c w :
  calls (snd (transaction c w)) = calls w ++ [c] /\
  timers (snd (transaction c w)) = timers w /\
  (fst (transaction c w) = Resolved tt \/
   exists m, fst (transaction c w) = Rejected (ErrorObject m)).
Proof.
  unfold transaction; js_unfold; js_beta.
  repeat (js_case; js_beta); repeat split; eauto.
Qed.

(** The loop of [retryWithBackoff] under the default options, unrolled. *)
Lemma retry_default_unrolled {T} (operation : IO T) w :
  GasRelayerService.retryWithBackoff operation
    (GasRelayerService.mkRetryOptions 3 1000 10000) w =
  match operation w with
  | (Resolved a, w1) => (Resolved a, w1)
  | (Rejected _, w1) =>
      match operation (snd (sleep 1000 w1)) with
      | (Resolved a, w2) => (Resolved a, w2)
      | (Rejected _, w2) =>
          match operation (snd (sleep 2000 w2)) with
          | (Resolved a, w3) => (Resolved a, w3)
          | (Rejected err, w3) =>
              match get_message err w3 with
              | (Resolved m, w4) =>
                  (Rejected (ErrorObject
                     ("Failed after 3 attempts. Last error: " +:+ m)), w4)
              | (Rejected t, w4) => (Rejected t, w4)
              end
          end
      end
  end.
Proof.
  unfold GasRelayerService.retryWithBackoff.
  cbn [GasRelayerService.maxAttempts]. change (Z.to_nat 3) with 3%nat.
  cbn [GasRelayerService.retry_loop GasRelayerService.maxAttempts
       GasRelayerService.initialDelay GasRelayerService.maxDelay].
  change (1 =? 3) with false. change (1 + 1 =? 3) with false.
  change (1 + 1 + 1 =? 3) with true.
  change (Z.min (1000 * 2 ^ (1 - 1)) 10000) with 1000.
  change (Z.min (1000 * 2 ^ (1 + 1 - 1)) 10000) with 2000.
  change (pretty (1 + 1 + 1)) with "3".
  unfold try_catch, Js.bind, Js.throw.
  destruct (operation w) as [[a|t] w1]; [reflexivity|].
  cbn [sleep fst snd].
  destruct (operation _) as [[a|t'] w2]; [reflexivity|].
  destruct (operation _) as [[a|t''] w3]; [reflexivity|].
  destruct (get_message t'' w3) as [[m|u] w4]; reflexivity.
Qed.

Lemma retry_default c w :
  let r := GasRelayerService.retryWithBackoff (transaction c)
             (GasRelayerService.mkRetryOptions 3 1000 10000) w in
  exists k : nat,
    (1 <= k <= 3)%nat /\
    calls (snd r) = calls w ++ replicate k c /\
    timers (snd r) = timers w ++ take (k - 1) [1000; 2000] /\
    (fst r = Resolved tt \/
     k = 3%nat /\
     exists m, fst r = Rejected (ErrorObject ("Failed after 3 attempts. Last error: " +:+ m))).
Proof.
  intros r. subst r. rewrite retry_default_unrolled.
  destruct (transaction_spec c w) as (Hc1 & Ht1 & Hr1).
  destruct (transaction c w) as [r1 w1]; simpl in Hc1, Ht1, Hr1.
  destruct Hr1 as [-> | [m1 ->]].
  { exists 1%nat. simpl. rewrite Hc1, Ht1, app_nil_r. repeat split; auto. }
  destruct (transaction_spec c (snd (sleep 1000 w1))) as (Hc2 & Ht2 & Hr2).
  destruct (transaction c (snd (sleep 1000 w1))) as [r2 w2];
    simpl in Hc2, Ht2, Hr2.
  destruct Hr2 as [-> | [m2 ->]].
  { exists 2%nat. simpl. rewrite Hc2, Ht2, Hc1, Ht1, <- app_assoc.
    repeat split; auto. }
  destruct (transaction_spec c (snd (sleep 2000 w2))) as (Hc3 & Ht3 & Hr3).
  destruct (transaction c (snd (sleep 2000 w2))) as [r3 w3];
    simpl in Hc3, Ht3, Hr3.
  exists 3%nat.
  destruct Hr3 as [-> | [m3 ->]]; simpl;
    rewrite Hc3, Ht3, Hc2, Ht2, Hc1, Ht1, <- !app_assoc;
    repeat split; eauto.
Qed.

(** *** The attempts of a retried call *)

Lemma transaction_run c w :
  fst (transaction c w) =
  match GasRelayerService.attempt_error w c 1 with
  | None => Resolved tt
  | Some m => Rejected (ErrorObject m)
  end.
Proof.
  unfold GasRelayerService.attempt_error, transaction; js_unfold; js_beta.
  cbn [replicate].
  repeat (js_case; js_beta); reflexivity.
Qed.

Lemma transaction_oracles c w :
  chain_send (snd (transaction c w)) = chain_send w /\
  chain_wait (snd (transaction c w)) = chain_wait w.
Proof.
  unfold transaction; js_unfold; js_beta.
  repeat (js_case; js_beta); split; reflexivity.
Qed.

Lemma attempt_error_shift w w' c j :
  chain_send w' = chain_send w -> chain_wait w' = chain_wait w ->
  calls w' = calls w ++ [c] ->
  GasRelayerService.attempt_error w' c j = GasRelayerService.attempt_error w c (S j).
Proof.
  intros Hs Hw Hc. unfold GasRelayerService.attempt_error.
  rewrite Hs, Hw, Hc, <- app_assoc. reflexivity.
Qed.

(** One turn of the loop. *)
Lemma retry_loop_step {T} (operation : IO T) options n attempt lastError w :
  GasRelayerService.retry_loop operation options (S n) attempt lastError w =
  match operation w with
  | (Resolved a, w1) => (Resolved a, w1)
  | (Rejected err, w1) =>
      if attempt =? GasRelayerService.maxAttempts options then
        match get_message err w1 with
        | (Resolved m, w2) =>
            (Rejected (ErrorObject
               ("Failed after " +:+ pretty attempt +:+
                " attempts. Last error: " +:+ m)), w2)
        | (Rejected t, w2) => (Rejected t, w2)
        end
      else
        GasRelayerService.retry_loop operation options n (attempt + 1) err
          (snd (sleep (Z.min (GasRelayerService.initialDelay options * 2 ^ (attempt - 1))
                             (GasRelayerService.maxDelay options)) w1))
  end.
Proof.
  cbn [GasRelayerService.retry_loop]. unfold try_catch.
  destruct (operation w) as [[a|err] w1]; [reflexivity|].
  destruct (attempt =? GasRelayerService.maxAttempts options).
  - unfold Js.bind, Js.throw. destruct (get_message err w1) as [[m|t] w2]; reflexivity.
  - reflexivity.
Qed.

(** The loop started at [attempt] with [remaining] iterations to go stops
    at the first attempt that succeeds, and otherwise at the last one. *)
Lemma retry_loop_trace c options :
  forall (remaining : nat) attempt lastError w,
    attempt + Z.of_nat remaining = GasRelayerService.maxAttempts options + 1 ->
    (1 <= remaining)%nat ->
    let r := GasRelayerService.retry_loop (transaction c) options remaining
               attempt lastError w in
    exists k : nat,
      (1 <= k <= remaining)%nat /\
      calls (snd r) = calls w ++ replicate k c /\
      (forall j : nat, (1 <= j < k)%nat -> GasRelayerService.attempt_error w c j <> None) /\
      match GasRelayerService.attempt_error w c k with
      | None => fst r = Resolved tt
      | Some m =>
          k = remaining /\
          fst r = Rejected (ErrorObject
                    ("Failed after " +:+ pretty (GasRelayerService.maxAttempts options) +:+
                     " attempts. Last error: " +:+ m))
      end.
Proof.
  induction remaining as [|n IH]; intros attempt lastError w Hsum Hpos; [lia|].
  intros r. subst r. rewrite retry_loop_step.
  pose proof (transaction_run c w) as Hr1.
  destruct (transaction_spec c w) as (Hc1 & _ & _).
  destruct (transaction_oracles c w) as (Hs1 & Hw1).
  destruct (transaction c w) as [r1 w1]. simpl in Hr1, Hc1, Hs1, Hw1.
  destruct (GasRelayerService.attempt_error w c 1) as [m1|] eqn:E1; subst r1.
  2:{ exists 1%nat. simpl. rewrite Hc1, E1.
      repeat split; try lia; try reflexivity. }
  destruct n as [|n].
  - assert (Hlast : attempt = GasRelayerService.maxAttempts options) by lia.
    rewrite <- Hlast, Z.eqb_refl. unfold get_message; js_beta.
    exists 1%nat. simpl. rewrite Hc1, E1.
    repeat split; try lia; try reflexivity.
  - assert (Hmore : (attempt =? GasRelayerService.maxAttempts options) = false)
      by (apply Z.eqb_neq; lia).
    rewrite Hmore.
    match goal with
    | |- context [GasRelayerService.retry_loop _ _ _ _ ?err ?w2] =>
        specialize (IH (attempt + 1) err w2 ltac:(lia) ltac:(lia));
        cbv zeta in IH;
        assert (Hshift : forall j, GasRelayerService.attempt_error w2 c j =
                                   GasRelayerService.attempt_error w c (S j))
          by (intros j; apply attempt_error_shift; simpl; assumption);
        assert (Hc2 : calls w2 = calls w ++ [c]) by (simpl; exact Hc1);
        destruct (GasRelayerService.retry_loop (transaction c) options (S n)
                    (attempt + 1) err w2) as [r2 w3]
    end.
    destruct IH as (k & Hk & Hc & Hfail & Hout). cbn [fst snd] in Hc, Hout |- *.
    exists (S k). rewrite Hc, Hc2, <- app_assoc.
    split; [lia|]. split; [reflexivity|]. split.
    + intros j Hj. destruct j as [|[|j]]; [lia | rewrite E1; discriminate |].
      rewrite <- Hshift. apply Hfail. lia.
    + rewrite <- Hshift.
      destruct (GasRelayerService.attempt_error _ c k) as [m|]; [|exact Hout].
      destruct Hout as [-> Hout]. split; [reflexivity | exact Hout].
Qed.

(** A contract call submitted the way the service's mutating methods do:
    retried under the default options, an alert on failure, the error
    passed on. *)
Lemma service_call_trace c am title (describe : string -> string) w :
  let r := try_catch
             (GasRelayerService.retryWithBackoff (transaction c)
                (GasRelayerService.mkRetryOptions 3 1000 10000))
             (fun err =>
                Js.bind (get_message err) (fun m =>
                Js.bind (AlertManager.sendAlert am title (describe m) AlertManager.info)
                  (fun _ => Js.throw err))) w in
  exists k : nat,
    (1 <= k <= 3)%nat /\
    GasRelayerService.calls_made w (snd r) = replicate k c /\
    timers (snd r) = timers w ++ take (k - 1) [1000; 2000] /\
    (forall j : nat, (1 <= j < k)%nat -> GasRelayerService.attempt_error w c j <> None) /\
    match GasRelayerService.attempt_error w c k with
    | None => fst r = Resolved tt /\ requests (snd r) = requests w
    | Some m =>
        let failure := "Failed after 3 attempts. Last error: " +:+ m in
        k = 3%nat /\
        fst r = Rejected (ErrorObject failure) /\
        requests (snd r) = requests w ++
          [(AlertManager.webhookUrl am,
            [("title", title); ("message", describe failure); ("severity", "info");
             ("environment", AlertManager.environment am); ("timestamp", clock w)])]
    end.
Proof.
  intros r. subst r.
  pose proof (retry_default c w) as (k' & _ & Hcalls' & Htimers & _).
  pose proof (retry_loop_webhook (transaction c)
                (GasRelayerService.mkRetryOptions 3 1000 10000) (transaction_webhook c)
                3 1 Undefined w) as (Hq & _ & Hclock).
  destruct (retry_loop_trace c (GasRelayerService.mkRetryOptions 3 1000 10000)
              3 1 Undefined w eq_refl ltac:(lia))
    as (k & Hk & Hcalls & Hfail & Hout).
  unfold GasRelayerService.retryWithBackoff in *.
  cbn [GasRelayerService.maxAttempts] in *. change (Z.to_nat 3) with 3%nat in *.
  change (pretty 3) with "3" in Hout.
  assert (Hkk : k' = k).
  { rewrite Hcalls in Hcalls'. apply app_inv_head in Hcalls'.
    apply (f_equal length) in Hcalls'. rewrite !length_replicate in Hcalls'.
    congruence. }
  subst k'.
  unfold try_catch, GasRelayerService.calls_made.
  destruct (GasRelayerService.retry_loop (transaction c) _ 3 1 Undefined w)
    as [res w1].
  simpl in Hcalls, Htimers, Hq, Hclock, Hout.
  exists k. split; [exact Hk|].
  destruct (GasRelayerService.attempt_error w c k) as [m|].
  - destruct Hout as [-> ->]. unfold get_message; js_beta.
    match goal with
    | |- context [AlertManager.sendAlert ?a ?t ?msg ?sv w1] =>
        pose proof (sendAlert_resolves a t msg sv w1) as Hs;
        pose proof (sendAlert_posts a t msg sv w1) as Hp;
        pose proof (sendAlert_frame a t msg sv w1) as [Hf1 Hf2];
        destruct (AlertManager.sendAlert a t msg sv w1) as [x w2]
    end.
    simpl in Hs, Hp, Hf1, Hf2. subst x. simpl.
    rewrite Hf1, Hf2, Hp, Hcalls, Htimers, Hq, Hclock, drop_app_length.
    repeat split; try reflexivity; exact Hfail.
  - subst res. simpl. rewrite Hcalls, Htimers, drop_app_length.
    repeat split; try reflexivity; try exact Hfail; exact Hq.
Qed.

(** C5, amended: each service invocation of [compensateRelayer] or
    [withdrawRelayerBalance] submits the contract call between one and
    three times, sleeping 1000 ms and then 2000 ms between attempts.  It
    stops at the first attempt that succeeds: every attempt before the
    last one made has failed, and the call resolves, with no alert sent,
    exactly when the last one made succeeds.  A failure reaches the caller
    only when the third attempt has failed, as "Failed after 3 attempts.
    Last error: ..." with the third attempt's error, after one alert
    carrying that message has been posted. *)
Theorem C5_financial_calls_retried :
  (forall am relayer gasUsed w,
     let c := CompensateRelayerCall relayer gasUsed in
     let r := GasRelayerService.compensateRelayer
                (GasRelayerService.new_GasRelayerService am) relayer gasUsed w in
     exists k : nat,
       (1 <= k <= 3)%nat /\
       GasRelayerService.calls_made w (snd r) = replicate k c /\
       timers (snd r) = timers w ++ take (k - 1) [1000; 2000] /\
       (forall j : nat, (1 <= j < k)%nat ->
                        GasRelayerService.attempt_error w c j <> None) /\
       match GasRelayerService.attempt_error w c k with
       | None => fst r = Resolved tt /\ requests (snd r) = requests w
       | Some m =>
           let failure := "Failed after 3 attempts. Last error: " +:+ m in
           k = 3%nat /\
           fst r = Rejected (ErrorObject failure) /\
           requests (snd r) = requests w ++
             [(AlertManager.webhookUrl am,
               [("title", "Relayer Compensation Failed");
                ("message", "Failed to compensate relayer " +:+ relayer +:+ ": " +:+ failure);
                ("severity", "info");
                ("environment", AlertManager.environment am);
                ("timestamp", clock w)])]
       end) /\
  (forall am relayer signer w,
     let c := WithdrawRelayerBalanceCall signer in
     let r := GasRelayerService.withdrawRelayerBalance
                (GasRelayerService.new_GasRelayerService am) relayer signer w in
     exists k : nat,
       (1 <= k <= 3)%nat /\
       GasRelayerService.calls_made w (snd r) = replicate k c /\
       timers (snd r) = timers w ++ take (k - 1) [1000; 2000] /\
       (forall j : nat, (1 <= j < k)%nat ->
                        GasRelayerService.attempt_error w c j <> None) /\
       match GasRelayerService.attempt_error w c k with
       | None => fst r = Resolved tt /\ requests (snd r) = requests w
       | Some m =>
           let failure := "Failed after 3 attempts. Last error: " +:+ m in
           k = 3%nat /\
           fst r = Rejected (ErrorObject failure) /\
           requests (snd r) = requests w ++
             [(AlertManager.webhookUrl am,
               [("title", "Withdrawal Failed");
                ("message", "Failed to withdraw relayer balance for " +:+ relayer +:+
                            ": " +:+ failure);
                ("severity", "info");
                ("environment", AlertManager.environment am);
                ("timestamp", clock w)])]
       end).
Proof.
  split.
  - intros am relayer gasUsed w.
    exact (service_call_trace (CompensateRelayerCall relayer gasUsed) am
             "Relayer Compensation Failed"
             (fun m => "Failed to compensate relayer " +:+ relayer +:+ ": " +:+ m) w).
  - intros am relayer signer w.
    exact (service_call_trace (WithdrawRelayerBalanceCall signer) am
             "Withdrawal Failed"
             (fun m => "Failed to withdraw relayer balance for " +:+ relayer +:+ ": " +:+ m)
             w).
Qed.

(** ** Further properties of the services *)

(** *** The derived alert senders *)

(** X12.  [sendMetricAlert] never rejects.  When the value is not on the
    alerting side of the threshold it does nothing at all: no request, no
    console line.  When it is, exactly one alert is posted, with severity
    "warning". *)
Theorem X12_metric_alert_gated :
  forall (number : Type) (gt lt : number -> number -> bool) (show : number -> string)
         this metricName value threshold comparison w,
    let crossed := match comparison with
                   | AlertManager.above => gt value threshold
                   | AlertManager.below => lt value threshold
                   end in
    let r := AlertManager.sendMetricAlert number gt lt show this metricName
               value threshold comparison w in
    fst r = Resolved tt /\
    (crossed = false -> snd r = w) /\
    (crossed = true ->
     exists request,
       requests (snd r) = requests w ++ [request] /\
       fst request = AlertManager.webhookUrl this /\
       AlertManager.posted_severity request = Some "warning").
Proof.
  intros number gt lt show this metricName value threshold comparison w crossed r.
  subst r. unfold AlertManager.sendMetricAlert. fold crossed.
  destruct crossed.
  - split; [apply sendAlert_resolves|]. split; [discriminate|]. intros _.
    eexists. split; [apply sendAlert_posts|]. split; reflexivity.
  - split; [reflexivity|]. split; [reflexivity | discriminate].
Qed.

Lemma X12_metric_alert_gated_witness :
  let this := AlertManager.mkAlertManager "https://alerts.example/hook" "production" in
  snd (AlertManager.sendMetricAlert Z Z.gtb Z.ltb pretty this "gas" 40 50
         AlertManager.above Scenario.rejecting) = Scenario.rejecting.
Proof.
  intro this.
  exact (proj1 (proj2 (X12_metric_alert_gated Z Z.gtb Z.ltb pretty this "gas" 40 50
                         AlertManager.above Scenario.rejecting)) eq_refl).
Defined.

(** X13.  [sendHealthCheck] never rejects and posts exactly one alert,
    titled "Health Check: <service>", whose severity is "info" for a
    healthy service and "error" for an unhealthy one. *)
Theorem X13_health_check_severity :
  forall this service status details w,
    let r := AlertManager.sendHealthCheck this service status details w in
    fst r = Resolved tt /\
    exists message,
      requests (snd r) = requests w ++
        [(AlertManager.webhookUrl this,
          [("title", "Health Check: " +:+ service); ("message", message);
           ("severity", match status with
                        | AlertManager.healthy => "info"
                        | AlertManager.unhealthy => "error"
                        end);
           ("environment", AlertManager.environment this);
           ("timestamp", clock w)])].
Proof.
  intros this service status details w r. subst r.
  unfold AlertManager.sendHealthCheck.
  split; [apply sendAlert_resolves|].
  eexists. rewrite sendAlert_posts. destruct status; reflexivity.
Qed.

(** *** The retry loop in general *)

Lemma transaction_frame c w :
  requests (snd (transaction c w)) = requests w /\
  console (snd (transaction c w)) = console w /\
  clock (snd (transaction c w)) = clock w /\
  network (snd (transaction c w)) = network w.
Proof.
  unfold transaction; js_unfold; js_beta.
  repeat (js_case; js_beta); repeat split; reflexivity.
Qed.

(** The loop started at [attempt] with [remaining] iterations to go. *)
Lemma retry_loop_spec c options :
  forall (remaining : nat) attempt lastError w,
    attempt + Z.of_nat remaining = GasRelayerService.maxAttempts options + 1 ->
    (1 <= remaining)%nat ->
    let r := GasRelayerService.retry_loop (transaction c) options remaining
               attempt lastError w in
    exists k : nat,
      (1 <= k <= remaining)%nat /\
      calls (snd r) = calls w ++ replicate k c /\
      timers (snd r) = timers w ++
        map (fun i => Z.min (GasRelayerService.initialDelay options * 2 ^ (i - 1))
                            (GasRelayerService.maxDelay options))
            (seqZ attempt (Z.of_nat k - 1)) /\
      requests (snd r) = requests w /\ console (snd r) = console w /\
      clock (snd r) = clock w /\ network (snd r) = network w /\
      (fst r = Resolved tt \/
       k = remaining /\
       exists m, fst r = Rejected (ErrorObject
                   ("Failed after " +:+ pretty (GasRelayerService.maxAttempts options) +:+
                    " attempts. Last error: " +:+ m))).
Proof.
  induction remaining as [|n IH]; intros attempt lastError w Hsum Hpos; [lia|].
  intros r. subst r. rewrite retry_loop_step.
  destruct (transaction_spec c w) as (Hc1 & Ht1 & Hr1).
  destruct (transaction_frame c w) as (Hq1 & Ho1 & Hk1 & Hn1).
  destruct (transaction c w) as [r1 w1].
  simpl in Hc1, Ht1, Hr1, Hq1, Ho1, Hk1, Hn1.
  destruct Hr1 as [-> | [m1 ->]].
  { exists 1%nat. simpl. rewrite Hc1, Ht1, app_nil_r.
    repeat split; auto; lia. }
  destruct n as [|n].
  - (* the last attempt *)
    assert (Hlast : attempt = GasRelayerService.maxAttempts options) by lia.
    rewrite <- Hlast, Z.eqb_refl. unfold get_message; js_beta.
    exists 1%nat. simpl. rewrite Hc1, Ht1, app_nil_r.
    repeat split; eauto.
  - assert (Hmore : (attempt =? GasRelayerService.maxAttempts options) = false)
      by (apply Z.eqb_neq; lia).
    rewrite Hmore.
    match goal with
    | |- context [GasRelayerService.retry_loop _ _ _ _ ?err ?w2] =>
        specialize (IH (attempt + 1) err w2 ltac:(lia) ltac:(lia));
        cbv zeta in IH;
        destruct (GasRelayerService.retry_loop (transaction c) options (S n)
                    (attempt + 1) err w2) as [r2 w3]
    end.
    cbn [fst snd sleep calls timers requests console clock network] in IH |- *.
    destruct IH as (k & Hk & Hc2 & Ht2 & Hq2 & Ho2 & Hk2 & Hn2 & Hr2).
    exists (S k). rewrite Hc2, Ht2, Hq2, Ho2, Hk2, Hn2, Hc1, Ht1.
    repeat split; try lia; try assumption.
    + rewrite <- app_assoc. reflexivity.
    + rewrite <- app_assoc. f_equal.
      replace (Z.of_nat (S k) - 1) with (Z.succ (Z.of_nat k - 1)) by lia.
      rewrite (seqZ_cons attempt) by lia.
      replace (Z.pred (Z.succ (Z.of_nat k - 1))) with (Z.of_nat k - 1) by lia.
      replace (Z.succ attempt) with (attempt + 1) by lia.
      reflexivity.
    + destruct Hr2 as [Hr2 | (-> & m & Hr2)]; [left; exact Hr2|].
      right. split; [reflexivity | eauto].
Qed.

(** X14.  With [maxAttempts = n >= 1], [retryWithBackoff] runs the
    transaction between one and [n] times and never more, and stops at
    the first attempt that succeeds: every attempt before the last one
    made has failed; if the last one made succeeds the loop resolves; if
    it fails it was the [n]-th, and the loop rejects with "Failed after n
    attempts. Last error: ..." and that attempt's error.  It posts nothing
    and logs nothing itself. *)
Theorem X14_retry_attempts_bounded :
  forall c options w,
    1 <= GasRelayerService.maxAttempts options ->
    let r := GasRelayerService.retryWithBackoff (transaction c) options w in
    exists k : nat,
      1 <= Z.of_nat k <= GasRelayerService.maxAttempts options /\
      GasRelayerService.calls_made w (snd r) = replicate k c /\
      requests (snd r) = requests w /\ console (snd r) = console w /\
      (forall j : nat, (1 <= j < k)%nat ->
                       GasRelayerService.attempt_error w c j <> None) /\
      match GasRelayerService.attempt_error w c k with
      | None => fst r = Resolved tt
      | Some m =>
          Z.of_nat k = GasRelayerService.maxAttempts options /\
          fst r = Rejected (ErrorObject
                    ("Failed after " +:+ pretty (GasRelayerService.maxAttempts options) +:+
                     " attempts. Last error: " +:+ m))
      end.
Proof.
  intros c options w Hn r. subst r. unfold GasRelayerService.retryWithBackoff.
  destruct (retry_loop_spec c options
              (Z.to_nat (GasRelayerService.maxAttempts options)) 1 Undefined w
              ltac:(lia) ltac:(lia))
    as (_ & _ & _ & _ & Hq & Ho & _).
  destruct (retry_loop_trace c options
              (Z.to_nat (GasRelayerService.maxAttempts options)) 1 Undefined w
              ltac:(lia) ltac:(lia))
    as (k & Hk & Hc & Hfail & Hout).
  exists k. unfold GasRelayerService.calls_made.
  rewrite Hc, drop_app_length.
  repeat split; try lia; try assumption.
  destruct (GasRelayerService.attempt_error w c k) as [m|]; [|exact Hout].
  destruct Hout as [-> Hout]. split; [lia | exact Hout].
Qed.

Lemma X14_retry_attempts_bounded_witness :
  let c := CompensateRelayerCall "0xA11CE" 50000 in
  let r := GasRelayerService.retryWithBackoff (transaction c)
             (GasRelayerService.mkRetryOptions 5 100 250) Scenario.recovering in
  fst r = Resolved tt /\
  GasRelayerService.calls_made Scenario.recovering (snd r) = [c; c].
Proof.
  intros c r.
  destruct (X14_retry_attempts_bounded c (GasRelayerService.mkRetryOptions 5 100 250)
              Scenario.recovering ltac:(simpl; lia))
    as (k & Hk & Hc & _ & _ & Hfail & Hout).
  fold r in Hc, Hout.
  destruct k as [|[|[|k]]].
  - simpl in Hk. lia.
  - simpl in Hout. destruct Hout as [Hout _]. discriminate.
  - split; [exact Hout | exact Hc].
  - exfalso. apply (Hfail 2%nat); [lia | reflexivity].
Defined.

(** X15.  Between attempts [retryWithBackoff] waits, and nowhere else: one
    wait per failed attempt but the last, the [i]-th being
    [min(initialDelay * 2^(i-1), maxDelay)]; so no wait is longer than
    [maxDelay]. *)
Theorem X15_retry_delays_capped :
  forall c options w,
    1 <= GasRelayerService.maxAttempts options ->
    let r := GasRelayerService.retryWithBackoff (transaction c) options w in
    let attempts := length (GasRelayerService.calls_made w (snd r)) in
    timers (snd r) = timers w ++
      map (fun i => Z.min (GasRelayerService.initialDelay options * 2 ^ (i - 1))
                          (GasRelayerService.maxDelay options))
          (seqZ 1 (Z.of_nat attempts - 1)) /\
    Forall (fun d => d <= GasRelayerService.maxDelay options)
      (drop (length (timers w)) (timers (snd r))).
Proof.
  intros c options w Hn r attempts. subst r attempts.
  unfold GasRelayerService.retryWithBackoff.
  destruct (retry_loop_spec c options
              (Z.to_nat (GasRelayerService.maxAttempts options)) 1 Undefined w
              ltac:(lia) ltac:(lia))
    as (k & Hk & Hc & Ht & _).
  unfold GasRelayerService.calls_made.
  rewrite Hc, Ht, !drop_app_length, length_replicate.
  split; [reflexivity|].
  apply Forall_map, Forall_forall. intros i _. simpl. lia.
Qed.

Lemma X15_retry_delays_capped_witness :
  let c := CompensateRelayerCall "0xA11CE" 50000 in
  let r := GasRelayerService.retryWithBackoff (transaction c)
             (GasRelayerService.mkRetryOptions 5 100 250) Scenario.rejecting in
  timers (snd r) = [100; 200; 250; 250].
Proof.
  intros c r.
  destruct (X15_retry_delays_capped c (GasRelayerService.mkRetryOptions 5 100 250)
              Scenario.rejecting ltac:(simpl; lia)) as [Ht _].
  subst r. rewrite Ht. vm_compute. reflexivity.
Defined.

(** *** The service methods *)

(** X16.  The [relayer] argument of the service's [withdrawRelayerBalance]
    only labels the alert: the result handed to the caller, the contract
    calls submitted and the waits between attempts are the same whatever
    [relayer] is passed. *)
Theorem X16_withdraw_ignores_relayer_argument :
  forall svc relayer1 relayer2 signer w,
    let a := GasRelayerService.withdrawRelayerBalance svc relayer1 signer w in
    let b := GasRelayerService.withdrawRelayerBalance svc relayer2 signer w in
    fst a = fst b /\ calls (snd a) = calls (snd b) /\ timers (snd a) = timers (snd b).
Proof.
  intros svc relayer1 relayer2 signer w a b. subst a b.
  unfold GasRelayerService.withdrawRelayerBalance, get_message; js_beta.
  destruct (GasRelayerService.retryWithBackoff _ _ w) as [[[]|[m|]] w1]; js_beta;
    try (repeat split; reflexivity).
  pose proof (sendAlert_resolves (GasRelayerService.alertManager svc) "Withdrawal Failed"
    ("Failed to withdraw relayer balance for " +:+ relayer1 +:+ ": " +:+ m)
    AlertManager.info w1) as Hs1.
  pose proof (sendAlert_frame (GasRelayerService.alertManager svc) "Withdrawal Failed"
    ("Failed to withdraw relayer balance for " +:+ relayer1 +:+ ": " +:+ m)
    AlertManager.info w1) as [Hc1 Ht1].
  pose proof (sendAlert_resolves (GasRelayerService.alertManager svc) "Withdrawal Failed"
    ("Failed to withdraw relayer balance for " +:+ relayer2 +:+ ": " +:+ m)
    AlertManager.info w1) as Hs2.
  pose proof (sendAlert_frame (GasRelayerService.alertManager svc) "Withdrawal Failed"
    ("Failed to withdraw relayer balance for " +:+ relayer2 +:+ ": " +:+ m)
    AlertManager.info w1) as [Hc2 Ht2].
  destruct (AlertManager.sendAlert _ _ ("Failed to withdraw relayer balance for " +:+ relayer1 +:+ ": " +:+ m) _ w1)
    as [x1 u1].
  destruct (AlertManager.sendAlert _ _ ("Failed to withdraw relayer balance for " +:+ relayer2 +:+ ": " +:+ m) _ w1)
    as [x2 u2].
  simpl in *. subst x1 x2. simpl. rewrite Hc1, Hc2, Ht1, Ht2.
  repeat split; reflexivity.
Qed.

(** X17.  The service alerts exactly when it fails.  A
    [compensateRelayer] that resolves posts nothing and logs nothing; one
    that rejects has posted exactly one alert, titled "Relayer
    Compensation Failed", naming the relayer and the error, at the default
    severity "info", and the error it rejects with is the retry loop's
    "Failed after 3 attempts. Last error: ...". *)
Theorem X17_alert_exactly_on_failure :
  forall am relayer gasUsed w,
    let r := GasRelayerService.compensateRelayer
               (GasRelayerService.new_GasRelayerService am) relayer gasUsed w in
    (fst r = Resolved tt ->
     requests (snd r) = requests w /\ console (snd r) = console w) /\
    (forall t, fst r = Rejected t ->
     exists m,
       t = ErrorObject ("Failed after 3 attempts. Last error: " +:+ m) /\
       requests (snd r) = requests w ++
         [(AlertManager.webhookUrl am,
           [("title", "Relayer Compensation Failed");
            ("message", "Failed to compensate relayer " +:+ relayer +:+ ": " +:+
                        "Failed after 3 attempts. Last error: " +:+ m);
            ("severity", "info");
            ("environment", AlertManager.environment am);
            ("timestamp", clock w)])]).
Proof.
  intros am relayer gasUsed w r. subst r.
  unfold GasRelayerService.compensateRelayer, GasRelayerService.retryWithBackoff.
  cbn [GasRelayerService.defaultRetryOptions GasRelayerService.alertManager
       GasRelayerService.new_GasRelayerService GasRelayerService.maxAttempts].
  destruct (retry_loop_spec (CompensateRelayerCall relayer gasUsed)
              (GasRelayerService.mkRetryOptions 3 1000 10000) 3 1 Undefined w
              eq_refl ltac:(lia))
    as (k & _ & _ & _ & Hq & Ho & Hk & _ & Hr).
  change (Z.to_nat 3) with 3%nat.
  unfold try_catch.
  destruct (GasRelayerService.retry_loop _ _ 3 1 Undefined w) as [[[]|t] w1];
    simpl in Hq, Ho, Hk, Hr.
  - simpl. split; [auto | discriminate].
  - destruct Hr as [Hr | (_ & m & Hr)]; [discriminate|].
    injection Hr as ->. unfold get_message; js_beta.
    change (pretty 3) with "3".
    pose proof (sendAlert_resolves am "Relayer Compensation Failed"
      ("Failed to compensate relayer " +:+ relayer +:+ ": " +:+
       "Failed after " +:+ "3" +:+ " attempts. Last error: " +:+ m)
      AlertManager.info w1) as Hs.
    pose proof (sendAlert_posts am "Relayer Compensation Failed"
      ("Failed to compensate relayer " +:+ relayer +:+ ": " +:+
       "Failed after " +:+ "3" +:+ " attempts. Last error: " +:+ m)
      AlertManager.info w1) as Hp.
    destruct (AlertManager.sendAlert _ _ _ _ w1) as [x u].
    simpl in Hs, Hp. subst x. simpl.
    split; [discriminate|]. intros t Ht. injection Ht as <-.
    exists m. split; [reflexivity|]. rewrite Hp, Hq, Hk. reflexivity.
Qed.

Lemma X17_alert_exactly_on_failure_witness :
  let r := GasRelayerService.compensateRelayer Scenario.service "0xA11CE" 50000
             Scenario.rejecting in
  exists m,
    fst r = Rejected (ErrorObject ("Failed after 3 attempts. Last error: " +:+ m)) /\
    length (requests (snd r)) = 1%nat.
Proof.
  intro r.
  destruct (proj2 (X17_alert_exactly_on_failure
                     (AlertManager.mkAlertManager "https://alerts.example/hook" "production")
                     "0xA11CE" 50000 Scenario.rejecting)
              (ErrorObject "Failed after 3 attempts. Last error: execution reverted"))
    as (m & Hm & Hreq).
  - vm_compute. reflexivity.
  - exists m. subst r. split.
    + rewrite <- Hm. vm_compute. reflexivity.
    + unfold Scenario.service. rewrite Hreq. reflexivity.
Defined.

(** ** Properties of the rate-limit middleware *)

Lemma trackViolation_lookup ip now (vs : gmap string RateLimit.ViolationRecord) ip' r :
  snd (RateLimit.trackViolation ip now vs) !! ip' = Some r <->
  (ip' = ip /\ r = RateLimit.mkViolation (fst (RateLimit.trackViolation ip now vs)) now) \/
  (ip' <> ip /\ vs !! ip' = Some r /\
   now - RateLimit.lastViolation r <= RateLimit.DAY_MS).
Proof.
  unfold RateLimit.trackViolation. cbn [fst snd RateLimit.count].
  rewrite map_lookup_filter_Some. cbn [snd].
  destruct (decide (ip' = ip)) as [->|Hne].
  - rewrite lookup_insert_eq. split.
    + intros [[= <-] _]. left. split; reflexivity.
    + intros [[_ ->] | [Hne _]]; [|congruence].
      split; [reflexivity|]. cbn [RateLimit.lastViolation].
      unfold RateLimit.DAY_MS. lia.
  - rewrite lookup_insert_ne by congruence. split.
    + intros [Hl Hfresh]. right. repeat split; try assumption. lia.
    + intros [[Heq _] | (_ & Hl & Hfresh)]; [congruence|].
      split; [assumption | lia].
Qed.

Lemma trackViolation_count ip now (vs : gmap string RateLimit.ViolationRecord) :
  snd (RateLimit.trackViolation ip now vs) !! ip =
    Some (RateLimit.mkViolation (fst (RateLimit.trackViolation ip now vs)) now) /\
  (forall r, vs !! ip = Some r ->
     (RateLimit.DAY_MS < now - RateLimit.lastViolation r ->
      fst (RateLimit.trackViolation ip now vs) = 1) /\
     (now - RateLimit.lastViolation r <= RateLimit.DAY_MS ->
      fst (RateLimit.trackViolation ip now vs) = RateLimit.count r + 1)) /\
  (vs !! ip = None -> fst (RateLimit.trackViolation ip now vs) = 1).
Proof.
  split.
  - apply trackViolation_lookup. left. split; reflexivity.
  - unfold RateLimit.trackViolation. cbn [fst RateLimit.count]. split.
    + intros r ->. simpl. split; intros H.
      * apply Z.ltb_lt in H. rewrite H. reflexivity.
      * apply Z.ltb_ge in H. rewrite H. reflexivity.
    + intros ->. simpl. destruct (_ <? _); reflexivity.
Qed.

(** X18.  [trackViolation] counts the violations of an address that
    follow one another within 24 hours: it returns 1 for an address with no
    record or whose last violation is more than 24 hours old, and one more
    than the recorded count otherwise; the address's record then holds the
    returned count and the current time. *)
Theorem X18_violation_count :
  forall ip now (vs : gmap string RateLimit.ViolationRecord),
    let n := fst (RateLimit.trackViolation ip now vs) in
    let vs' := snd (RateLimit.trackViolation ip now vs) in
    vs' !! ip = Some (RateLimit.mkViolation n now) /\
    (vs !! ip = None -> n = 1) /\
    (forall r, vs !! ip = Some r ->
       (RateLimit.DAY_MS < now - RateLimit.lastViolation r -> n = 1) /\
       (now - RateLimit.lastViolation r <= RateLimit.DAY_MS ->
        n = RateLimit.count r + 1)).
Proof.
  intros ip now vs n vs'. subst n vs'.
  destruct (trackViolation_count ip now vs) as (Hs & Hc & Hn).
  split; [exact Hs|]. split; [exact Hn | exact Hc].
Qed.

Lemma X18_violation_count_witness :
  let vs : gmap string RateLimit.ViolationRecord :=
    {[ "10.0.0.7" := RateLimit.mkViolation 4 1700000000000 ]} in
  fst (RateLimit.trackViolation "10.0.0.7" 1700000060000 vs) = 5.
Proof.
  intro vs.
  refine (proj2 (proj2 (proj2 (X18_violation_count "10.0.0.7" 1700000060000 vs))
                   (RateLimit.mkViolation 4 1700000000000) _) _).
  - reflexivity.
  - apply Z.leb_le. reflexivity.
Defined.

(** X19.  [trackViolation] sweeps the table: after any call no record is
    left whose last violation is more than 24 hours old, and the record of
    every other address that is younger than that is kept unchanged. *)
Theorem X19_stale_records_swept :
  forall ip now (vs : gmap string RateLimit.ViolationRecord),
    let vs' := snd (RateLimit.trackViolation ip now vs) in
    (forall ip' r, vs' !! ip' = Some r ->
       now - RateLimit.lastViolation r <= RateLimit.DAY_MS) /\
    (forall ip' r, ip' <> ip -> vs !! ip' = Some r ->
       now - RateLimit.lastViolation r <= RateLimit.DAY_MS ->
       vs' !! ip' = Some r) /\
    (forall ip' r, ip' <> ip -> vs' !! ip' = Some r -> vs !! ip' = Some r).
Proof.
  intros ip now vs vs'. subst vs'. repeat split.
  - intros ip' r H. apply trackViolation_lookup in H.
    destruct H as [[_ ->] | (_ & _ & H)]; [|exact H].
    cbn [RateLimit.lastViolation]. unfold RateLimit.DAY_MS. lia.
  - intros ip' r Hne Hl Hfresh. apply trackViolation_lookup. right. auto.
  - intros ip' r Hne H. apply trackViolation_lookup in H.
    destruct H as [[Heq _] | (_ & H & _)]; [congruence | exact H].
Qed.

Lemma X19_stale_records_swept_witness :
  let vs : gmap string RateLimit.ViolationRecord :=
    {[ "10.0.0.7" := RateLimit.mkViolation 4 1700000000000;
       "10.0.0.8" := RateLimit.mkViolation 2 1600000000000 ]} in
  snd (RateLimit.trackViolation "10.0.0.7" 1700000060000 vs) !! "10.0.0.8" = None.
Proof.
  intro vs.
  destruct (snd (RateLimit.trackViolation "10.0.0.7" 1700000060000 vs) !! "10.0.0.8")
    as [r|] eqn:Hl; [|reflexivity].
  pose proof (proj2 (proj2 (X19_stale_records_swept "10.0.0.7" 1700000060000 vs))
                "10.0.0.8" r ltac:(discriminate) Hl) as Hold.
  pose proof (proj1 (X19_stale_records_swept "10.0.0.7" 1700000060000 vs)
                "10.0.0.8" r Hl) as Hfresh.
  subst vs. rewrite lookup_insert_ne in Hold by discriminate.
  rewrite lookup_singleton_eq in Hold. injection Hold as <-.
  exfalso. revert Hfresh. apply Z.lt_nge. reflexivity.
Defined.

(** X20.  Violations of one address that follow one another within 24
    hours are numbered consecutively: starting from a record that holds a
    count [n0], a run of [k] such violations returns [n0 + 1, ..., n0 + k],
    whatever else is in the table. *)
Theorem X20_run_counts_up :
  forall ip times (vs : gmap string RateLimit.ViolationRecord) n0 t0,
    vs !! ip = Some (RateLimit.mkViolation n0 t0) ->
    RateLimit.each_within_a_day t0 times ->
    fst (RateLimit.track_run ip times vs) = seqZ (n0 + 1) (Z.of_nat (length times)).
Proof.
  intros ip times. induction times as [|now rest IH]; intros vs n0 t0 Hl Hrun.
  - reflexivity.
  - destruct Hrun as [Hnow Hrest]. cbn [RateLimit.track_run].
    destruct (trackViolation_count ip now vs) as (Hstored & Hcount & _).
    destruct (RateLimit.trackViolation ip now vs) as [n vs1] eqn:Htrack.
    cbn [fst snd] in *.
    assert (Hn : n = n0 + 1).
    { destruct (Hcount _ Hl) as [_ Hfresh]. apply Hfresh. exact Hnow. }
    subst n. specialize (IH vs1 (n0 + 1) now Hstored Hrest).
    destruct (RateLimit.track_run ip rest vs1) as [ns vs2]. cbn [fst] in *.
    rewrite IH. cbn [length].
    rewrite (seqZ_cons (n0 + 1)) by lia. f_equal. f_equal; lia.
Qed.

Lemma X20_run_counts_up_witness :
  let vs : gmap string RateLimit.ViolationRecord :=
    {[ "10.0.0.7" := RateLimit.mkViolation 4 1700000000000 ]} in
  fst (RateLimit.track_run "10.0.0.7" [1700000060000; 1700000120000] vs) = [5; 6].
Proof.
  intro vs.
  refine (X20_run_counts_up "10.0.0.7" [1700000060000; 1700000120000] vs 4
            1700000000000 _ _).
  - reflexivity.
  - simpl. repeat split; apply Z.leb_le; reflexivity.
Defined.

Lemma blockDuration_range n :
  5 <= n -> 3600000 <= RateLimit.blockDuration n <= 86400000.
Proof.
  intros Hn. unfold RateLimit.blockDuration.
  pose proof (Z.pow_pos_nonneg 2 (n - 5) ltac:(lia) ltac:(lia)). lia.
Qed.

(** X21.  An address is blocked for a whole number of hours that doubles
    with each violation from the fifth on and is capped at 24: one hour at
    the fifth violation, never less than an hour nor more than a day, never
    shorter for more violations, and a full day from the tenth on. *)
Theorem X21_block_duration_bounds :
  forall n,
    5 <= n ->
    RateLimit.blockDuration 5 = 3600000 /\
    3600000 <= RateLimit.blockDuration n <= 86400000 /\
    (n <= 9 -> RateLimit.blockDuration n = 2 ^ (n - 5) * 3600000) /\
    (10 <= n -> RateLimit.blockDuration n = 86400000) /\
    (forall n', n <= n' -> RateLimit.blockDuration n <= RateLimit.blockDuration n').
Proof.
  intros n Hn. unfold RateLimit.blockDuration.
  assert (Hpow : forall k, 0 <= k -> 1 <= 2 ^ k)
    by (intros k Hk; pose proof (Z.pow_pos_nonneg 2 k ltac:(lia) Hk); lia).
  assert (Hbig : forall k, 5 <= k -> 32 <= 2 ^ k).
  { intros k Hk. change 32 with (2 ^ 5). apply Z.pow_le_mono_r; lia. }
  split; [reflexivity|].
  pose proof (Hpow (n - 5) ltac:(lia)) as H1.
  split; [split; lia|].
  split; [|split].
  - intros Hle.
    assert (Hsmall : 2 ^ (n - 5) <= 2 ^ 4) by (apply Z.pow_le_mono_r; lia).
    change (2 ^ 4) with 16 in Hsmall. lia.
  - intros Hge. pose proof (Hbig (n - 5) ltac:(lia)). lia.
  - intros n' Hle.
    assert (2 ^ (n - 5) <= 2 ^ (n' - 5)) by (apply Z.pow_le_mono_r; lia). lia.
Qed.

Lemma X21_block_duration_bounds_witness :
  RateLimit.blockDuration 7 = 2 ^ (7 - 5) * 3600000.
Proof.
  refine (proj1 (proj2 (proj2 (X21_block_duration_bounds 7 _))) _).
  - apply Z.leb_le. reflexivity.
  - apply Z.leb_le. reflexivity.
Defined.

(** X22.  The over-limit handler always answers 429 [RATE_LIMITED] with a
    retry hint of 60 seconds, whatever becomes of the alert it sends.  It
    records the violation, and blocks the address exactly when this is at
    least its fifth violation in a row, until [now' + blockDuration n],
    between one hour and one day ahead; other addresses' blocks are left
    alone. *)
Theorem X22_over_limit_handler :
  forall am req now now' st w,
    let ip := RateLimit.client_ip req in
    let n := fst (RateLimit.trackViolation ip now (RateLimit.violations st)) in
    exists st',
      fst (RateLimit.handler am req now now' st w) =
        Resolved (RateLimit.mkHttp 429 false "RATE_LIMITED"
                    "Too many requests, please try again later" (Some 60), st') /\
      RateLimit.violations st' =
        snd (RateLimit.trackViolation ip now (RateLimit.violations st)) /\
      (n < 5 -> RateLimit.blockedIPs st' = RateLimit.blockedIPs st) /\
      (5 <= n ->
       exists until,
         RateLimit.blockedIPs st' !! ip =
           Some (RateLimit.mkBlock until "Excessive rate limit violations") /\
         until = now' + RateLimit.blockDuration n /\
         now' + 3600000 <= until <= now' + 86400000) /\
      (forall other, other <> ip ->
         RateLimit.blockedIPs st' !! other = RateLimit.blockedIPs st !! other) /\
      exists request,
        requests (snd (RateLimit.handler am req now now' st w)) = requests w ++ [request] /\
        AlertManager.posted_severity request = Some "warning".
Proof.
  intros am req now now' st w ip n. subst n.
  unfold RateLimit.handler. fold ip.
  destruct (RateLimit.trackViolation ip now (RateLimit.violations st)) as [n tracked].
  cbn [fst snd]. unfold Js.bind.
  match goal with
  | |- context [AlertManager.sendAlert ?a ?t ?m ?v w] =>
      pose proof (sendAlert_resolves a t m v w) as Hs;
      pose proof (sendAlert_posts a t m v w) as Hp;
      destruct (AlertManager.sendAlert a t m v w) as [x w1]
  end.
  simpl in Hs, Hp. subst x. unfold Js.ret. cbn [fst snd].
  eexists. split; [reflexivity|]. cbn [RateLimit.violations RateLimit.blockedIPs].
  split; [reflexivity|]. split; [|split; [|split]].
  - intros Hlt. apply Z.leb_gt in Hlt. rewrite Hlt. reflexivity.
  - intros Hge. pose proof (blockDuration_range n Hge) as Hb.
    apply Z.leb_le in Hge. rewrite Hge.
    eexists. split; [apply lookup_insert_eq|]. split; [reflexivity | lia].
  - intros other Hne. destruct (5 <=? n); [|reflexivity].
    apply lookup_insert_ne. congruence.
  - eexists. split; [exact Hp | reflexivity].
Qed.

Lemma X22_over_limit_handler_witness :
  let am := AlertManager.mkAlertManager "https://alerts.example/hook" "production" in
  let req := RateLimit.mkRequest (Some "10.0.0.7") None None "/api/gas-relayer" in
  let st := RateLimit.mkLimiter
              {[ "10.0.0.7" := RateLimit.mkViolation 4 1700000000000 ]} ∅ in
  exists st',
    fst (RateLimit.handler am req 1700000060000 1700000060001 st Scenario.rejecting) =
      Resolved (RateLimit.mkHttp 429 false "RATE_LIMITED"
                  "Too many requests, please try again later" (Some 60), st') /\
    RateLimit.blockedIPs st' !! "10.0.0.7" =
      Some (RateLimit.mkBlock (1700000060001 + 3600000) "Excessive rate limit violations").
Proof.
  intros am req st.
  destruct (X22_over_limit_handler am req 1700000060000 1700000060001 st Scenario.rejecting)
    as (st' & Hr & _ & _ & Hblock & _).
  exists st'. split; [exact Hr|].
  destruct Hblock as (until & Hl & -> & _).
  - apply Z.leb_le. vm_compute. reflexivity.
  - assert (Hip : RateLimit.client_ip req = "10.0.0.7") by reflexivity.
    assert (Hd : RateLimit.blockDuration
                   (fst (RateLimit.trackViolation (RateLimit.client_ip req)
                           1700000060000 (RateLimit.violations st))) = 3600000)
      by (vm_compute; reflexivity).
    rewrite Hd, Hip in Hl. exact Hl.
Defined.

(** *** The block check and the limit *)

Lemma prefix_app pattern s : String.prefix pattern (pattern +:+ s) = true.
Proof.
  induction pattern as [|c p IH]; simpl.
  - destruct s; reflexivity.
  - rewrite IH. destruct (Ascii.ascii_dec c c); [reflexivity | congruence].
Qed.

Lemma drop_string_app pattern s :
  drop_string (String.length pattern) (pattern +:+ s) = s.
Proof. induction pattern as [|c p IH]; simpl; [reflexivity | exact IH]. Qed.

Lemma replace_first_unfold pattern replacement s :
  replace_first pattern replacement s =
  if String.prefix pattern s
  then replacement +:+ drop_string (String.length pattern) s
  else match s with
       | EmptyString => EmptyString
       | String c s' => String c (replace_first pattern replacement s')
       end.
Proof. destruct s; reflexivity. Qed.

Lemma replace_first_prefix pattern replacement s :
  replace_first pattern replacement (pattern +:+ s) = replacement +:+ s.
Proof.
  rewrite replace_first_unfold, prefix_app, drop_string_app. reflexivity.
Qed.

(** X23.  A request from an address whose block has not run out is
    refused: [max] throws "IP blocked until ...", the block stays, and the
    wrapper's [catch] answers such an error with 403 [IP_BLOCKED].  Once
    the block has run out the request is let through with a limit and the
    block is removed from the table. *)
Theorem X23_blocked_address_refused :
  forall format_ok validKeys toISOString req now now' blocked b,
    blocked !! RateLimit.client_ip req = Some b ->
    let r := RateLimit.max format_ok validKeys toISOString req now now' blocked in
    (now < RateLimit.until b ->
     exists m,
       r = (Rejected (ErrorObject m), blocked) /\
       m = "IP blocked until " +:+ toISOString (RateLimit.until b) +:+ ": " +:+
           RateLimit.reason b /\
       RateLimit.withRateLimit_catch (ErrorObject m) =
         Resolved (RateLimit.mkHttp 403 false "IP_BLOCKED" m None)) /\
    (RateLimit.until b <= now -> now <= now' ->
     (exists limit, fst r = Resolved limit) /\
     snd r = delete (RateLimit.client_ip req) blocked).
Proof.
  intros format_ok validKeys toISOString req now now' blocked b Hb r. subst r.
  unfold RateLimit.max. rewrite Hb. split.
  - intros Hlt. apply Z.ltb_lt in Hlt. rewrite Hlt.
    eexists. split; [reflexivity|]. split; [reflexivity|].
    reflexivity.
  - intros Hexp Hmono.
    assert (H1 : (now <? RateLimit.until b) = false) by (apply Z.ltb_ge; lia).
    assert (H2 : (RateLimit.until b <=? now') = true) by (apply Z.leb_le; lia).
    rewrite H1, H2. split; [eexists|]; reflexivity.
Qed.

Lemma X23_blocked_address_refused_witness :
  let req := RateLimit.mkRequest (Some "10.0.0.7") None None "/api/gas-relayer" in
  let blocked : gmap string RateLimit.Block :=
    {[ "10.0.0.7" := RateLimit.mkBlock 1700003660001 "Excessive rate limit violations" ]} in
  RateLimit.max (fun _ => true) [] (fun _ => "2023-11-14T23:14:20.001Z") req
    1700000070000 1700000070000 blocked =
  (Rejected (ErrorObject
     "IP blocked until 2023-11-14T23:14:20.001Z: Excessive rate limit violations"),
   blocked).
Proof.
  intros req blocked.
  destruct (proj1 (X23_blocked_address_refused (fun _ => true) []
                     (fun _ => "2023-11-14T23:14:20.001Z") req
                     1700000070000 1700000070000 blocked
                     (RateLimit.mkBlock 1700003660001 "Excessive rate limit violations")
                     eq_refl))
    as (m & Hr & -> & _).
  - reflexivity.
  - exact Hr.
Defined.

(** X24.  The limit is 100 or 1000, and it is 1000 only for a request whose
    [Authorization] header, with its first "Bearer " removed, is a
    non-empty key that passes the format check and is listed in
    VALID_API_KEYS.  A request that is not blocked and carries "Bearer "
    followed by such a key gets 1000. *)
Theorem X24_limit_by_api_key :
  forall format_ok validKeys toISOString req now now' blocked,
    let r := RateLimit.max format_ok validKeys toISOString req now now' blocked in
    (forall limit,
       fst r = Resolved limit ->
       limit = RateLimit.public_max \/
       limit = RateLimit.authenticated_max /\
       exists header,
         RateLimit.authorization req = Some header /\
         let key := replace_first "Bearer " "" header in
         key <> "" /\ format_ok key = true /\ key ∈ validKeys) /\
    (forall key,
       RateLimit.authorization req = Some ("Bearer " +:+ key) ->
       key <> "" -> format_ok key = true -> key ∈ validKeys ->
       blocked !! RateLimit.client_ip req = None ->
       r = (Resolved RateLimit.authenticated_max, blocked)).
Proof.
  intros format_ok validKeys toISOString req now now' blocked r. subst r.
  assert (Hlimit : forall limit,
            (if negb (String.eqb (js_or (replace_first "Bearer " "" <$>
                                           RateLimit.authorization req) "") "")
                && RateLimit.isValidApiKey format_ok validKeys
                     (js_or (replace_first "Bearer " "" <$>
                               RateLimit.authorization req) "")
             then RateLimit.authenticated_max else RateLimit.public_max) = limit ->
            limit = RateLimit.public_max \/
            limit = RateLimit.authenticated_max /\
            exists header,
              RateLimit.authorization req = Some header /\
              let key := replace_first "Bearer " "" header in
              key <> "" /\ format_ok key = true /\ key ∈ validKeys).
  { intros limit. destruct (RateLimit.authorization req) as [header|]; simpl.
    - unfold js_or, truthy. simpl.
      destruct (String.eqb_spec (replace_first "Bearer " "" header) "") as [He|Hne];
        simpl; [intros <-; left; reflexivity|].
      unfold RateLimit.isValidApiKey.
      destruct (String.eqb_spec (replace_first "Bearer " "" header) "");
        [congruence|].
      destruct (format_ok (replace_first "Bearer " "" header)) eqn:Hf; simpl;
        [|intros <-; left; reflexivity].
      destruct (bool_decide_reflect
                  (replace_first "Bearer " "" header ∈ validKeys)) as [Hin|Hout];
        intros <-; [right | left; reflexivity].
      split; [reflexivity|]. exists header. auto.
    - intros <-. left. reflexivity. }
  split.
  - intros limit. unfold RateLimit.max.
    destruct (blocked !! RateLimit.client_ip req) as [b|].
    + destruct (now <? RateLimit.until b); cbn [fst]; [discriminate|].
      intros [= H]. apply Hlimit. exact H.
    + cbn [fst]. intros [= H]. apply Hlimit. exact H.
  - intros key Hauth Hne Hf Hin Hfree. unfold RateLimit.max.
    rewrite Hfree, Hauth. cbn [fmap option_fmap option_map].
    rewrite (replace_first_prefix "Bearer " "" key).
    change ("" +:+ key) with key.
    unfold js_or, truthy. simpl.
    destruct (String.eqb_spec key "") as [|_]; [congruence|]. simpl.
    unfold RateLimit.isValidApiKey.
    destruct (String.eqb_spec key "") as [|_]; [congruence|].
    rewrite Hf. simpl. rewrite bool_decide_eq_true_2 by exact Hin. reflexivity.
Qed.

Lemma X24_limit_by_api_key_witness :
  let req := RateLimit.mkRequest (Some "10.0.0.7") None (Some "Bearer k1.k2") "/api" in
  RateLimit.max (fun _ => true) ["k1.k2"] (fun _ => "") req 0 0 ∅ =
    (Resolved 1000, ∅).
Proof.
  intro req.
  refine (proj2 (X24_limit_by_api_key (fun _ => true) ["k1.k2"] (fun _ => "") req 0 0 ∅)
            "k1.k2" eq_refl _ eq_refl _ _).
  - discriminate.
  - apply list_elem_of_In. simpl. auto.
  - reflexivity.
Defined.

(** ** Properties of the gas-relayer API route *)









(** X27.  The route answers without calling any handler, and without
    sending anything, when the contract address is missing or malformed
    (500 [CONTRACT_NOT_CONFIGURED], whatever the method and action), when
    the method is neither GET nor POST (405 [METHOD_NOT_ALLOWED]), and when
    a POST names an action other than "compensate" and "withdraw" (400
    [INVALID_ACTION]).  A POST with one of these two actions is answered
    by the handler of that name. *)
Theorem X27_route_guards :
  forall isAddress parseNumber gasRelayerAddress svc relayerWallet
         handleEstimate handleBalance req w,
    let route := Api.handler isAddress parseNumber gasRelayerAddress svc relayerWallet
                   handleEstimate handleBalance in
    (truthy gasRelayerAddress = false \/
     isAddress (default "" gasRelayerAddress) = false ->
     route req w =
       (Resolved (Api.mkResponse 500 false
                    (Some ("CONTRACT_NOT_CONFIGURED",
                           "Gas relayer contract address not properly configured"))), w)) /\
    (truthy gasRelayerAddress = true ->
     isAddress (default "" gasRelayerAddress) = true ->
     (Api.method req <> "GET" -> Api.method req <> "POST" ->
      route req w =
        (Resolved (Api.mkResponse 405 false
                     (Some ("METHOD_NOT_ALLOWED", "HTTP method not allowed"))), w)) /\
     (Api.method req = "POST" ->
      Api.action req <> Some "compensate" -> Api.action req <> Some "withdraw" ->
      route req w = (Resolved Api.invalid_action, w)) /\
     (Api.method req = "POST" -> Api.action req = Some "compensate" ->
      route req w = Api.handleCompensate isAddress parseNumber svc req w) /\
     (Api.method req = "POST" -> Api.action req = Some "withdraw" ->
      route req w = Api.handleWithdraw isAddress svc relayerWallet req w)).
Proof.
  intros isAddress parseNumber gasRelayerAddress svc relayerWallet
    handleEstimate handleBalance req w route. subst route. unfold Api.handler. split.
  - intros Hbad.
    assert (Hcond : negb (truthy gasRelayerAddress)
                    || negb (isAddress (default "" gasRelayerAddress)) = true).
    { destruct Hbad as [H | H]; rewrite H; simpl; rewrite ?orb_true_r; reflexivity. }
    rewrite Hcond. reflexivity.
  - intros H1 H2. rewrite H1, H2. simpl negb. simpl orb. cbv iota.
    repeat split.
    + intros Hg Hp.
      destruct (String.eqb_spec (Api.method req) "GET"); [congruence|].
      destruct (String.eqb_spec (Api.method req) "POST"); [congruence|].
      reflexivity.
    + intros -> Hc Hw. simpl.
      destruct (Api.action req) as [act|]; [|reflexivity].
      destruct (String.eqb_spec act "compensate") as [->|Hn1]; [congruence|].
      destruct (String.eqb_spec act "withdraw") as [->|Hn2]; [congruence|].
      assert (Hmatch : forall A (x y z : A),
                match act with
                | "compensate" => x | "withdraw" => y | _ => z
                end = z).
      { intros A x y z. clear -Hn1 Hn2.
        repeat (destruct act as [|[[] [] [] [] [] [] [] []] act];
                try reflexivity; try congruence). }
      rewrite Hmatch. reflexivity.
    + intros -> ->. reflexivity.
    + intros -> ->. reflexivity.
Qed.

Lemma X27_route_guards_witness :
  let am := AlertManager.mkAlertManager "https://alerts.example/hook" "production" in
  let req := Api.mkRequest "POST" (Some "compensate") (Some "0xA11CE")
               (VNumber 50000) in
  Api.handler (fun a => String.eqb a "0xA11CE") (fun _ => NaN) None
    (GasRelayerService.new_GasRelayerService am) (Resolved "0xA11CE")
    (fun _ => Js.ret Api.invalid_action) (fun _ => Js.ret Api.invalid_action)
    req Scenario.rejecting =
  (Resolved (Api.mkResponse 500 false
               (Some ("CONTRACT_NOT_CONFIGURED",
                      "Gas relayer contract address not properly configured"))),
   Scenario.rejecting).
Proof.
  intros am req.
  refine (proj1 (X27_route_guards (fun a => String.eqb a "0xA11CE") (fun _ => NaN) None
                   (GasRelayerService.new_GasRelayerService am) (Resolved "0xA11CE")
                   (fun _ => Js.ret Api.invalid_action)
                   (fun _ => Js.ret Api.invalid_action)
                   req Scenario.rejecting) _).
  left. reflexivity.
Defined.
